(** * Folder synchronisation endpoint of [app/api/v1/endpoints/data.py]

    A shallow embedding of [sync_folder_sheets] (lines 83-140 of the source)
    and of the Python constructs it is written with: exceptions and their
    classes, [try]/[except], the [for] loop, the three counters the loop
    mutates, and the two services the endpoint awaits. *)

From stdpp Require Import gmap strings list fin_maps pretty.
From Stdlib Require Import ZArith Ascii.

Open Scope string_scope.

(** ** Python values and exceptions *)

(** The values stored in the dictionaries of [details]: [str] and [int]. *)
Inductive PyVal : Type :=
  | PStr (s : string)
  | PInt (z : Z).

#[global] Instance PyVal_eq_dec : EqDecision PyVal.
Proof. solve_decision. Defined.

(** A [Dict[str, Any]] with the values above. *)
Abbreviation Dict := (gmap string PyVal).

(** The exception classes the handlers of the endpoint name. *)
Inductive PyClass : Type :=
  | cls_HTTPException
  | cls_Exception.

(** A raised exception, by its place in the class hierarchy: a
    [fastapi.HTTPException] (a subclass of [Exception]), an instance of any
    other class below [Exception], or an instance of a class below
    [BaseException] that is outside [Exception] ([asyncio.CancelledError],
    [KeyboardInterrupt], [SystemExit]), which an [await] can raise as well. *)
Inductive PyExc : Type :=
  | HTTPException (status_code : Z) (detail : string)
  | OtherException (what : string)
  | OutsideException (class_name : string).

#[global] Instance PyExc_eq_dec : EqDecision PyExc.
Proof. solve_decision. Defined.

Definition isinstance (e : PyExc) (c : PyClass) : bool :=
  match c, e with
  | cls_HTTPException, HTTPException _ _ => true
  | cls_HTTPException, _ => false
  | cls_Exception, OutsideException _ => false
  | cls_Exception, _ => true
  end.

(** The result of evaluating a Python expression or statement. *)
Inductive Outcome (A : Type) : Type :=
  | Ok (a : A)
  | Raise (e : PyExc).
Arguments Ok {A} a.
Arguments Raise {A} e.

Definition is_ok {A} (o : Outcome A) : bool :=
  match o with Ok _ => true | Raise _ => false end.

(** Whether [except Exception] stops what the outcome raises, if anything. *)
Definition caught {A} (o : Outcome A) : bool :=
  match o with Ok _ => true | Raise e => isinstance e cls_Exception end.

(** ** Data of the endpoint *)

(** Modelled from the spec: the items [drive_service.get_sheets_in_folder]
    returns, whose class is not in the source; the endpoint reads their
    attributes [token] and [name] (spec 3, SpreadsheetFile). *)
Record SheetFile : Type := { token : string; name : string }.

#[global] Instance SheetFile_eq_dec : EqDecision SheetFile.
Proof. solve_decision. Defined.

(** Modelled from the spec: the dictionary [sync_service.sync_sheet] returns,
    whose declaration is not in the source (spec 3, SheetSyncResult: an
    integer and an ordered sequence of per-sheet records). The endpoint reads
    it with [result.get(key, default)], so either key may be absent. *)
Record SheetSyncResult (SheetRecord : Type) : Type :=
  { total_rows_written : option Z;
    sheets : option (list SheetRecord) }.
Arguments total_rows_written {SheetRecord} _.
Arguments sheets {SheetRecord} _.

(** [class FolderSyncResponse(BaseModel)], lines 52-60. *)
Record FolderSyncResponse : Type :=
  { success : bool;
    message : string;
    folder_token : string;
    total_sheets : nat;
    synced_sheets : nat;
    failed_sheets : nat;
    details : list Dict }.

(** The local variables of [sync_folder_sheets] that the loop mutates. *)
Module Frame.
Record t : Type :=
  { synced_sheets : nat;
    failed_sheets : nat;
    details : list Dict }.

(** The frame at function entry. *)
Definition fresh : t :=
  {| synced_sheets := 0; failed_sheets := 0; details := [] |}.
End Frame.

(** Whether a character occurs in a string. *)
Fixpoint has_char (c : ascii) (s : string) : bool :=
  match s with
  | EmptyString => false
  | String a rest => Ascii.eqb a c || has_char c rest
  end.

Section Endpoint.

(** The state of everything outside the process (the document platform,
    Redis), and the type of the per-sheet records of a sync result. *)
Context {World SheetRecord : Type}.

(** [str(e)], as the class of [e] defines it. *)
Variable py_str : PyExc -> string.

Abbreviation Result := (SheetSyncResult SheetRecord).

(** The services injected into the endpoint ([DriveServiceDep],
    [SheetSyncServiceDep]): each call returns or raises, and may change
    the world either way. *)
Record DriveService : Type :=
  { get_sheets_in_folder : string -> World -> Outcome (list SheetFile) * World }.

Record SheetSyncService : Type :=
  { sync_sheet : string -> World -> Outcome Result * World }.

(** A call made on a service, with what it answered. *)
Inductive Call : Type :=
  | Call_get_sheets_in_folder (folder : string) (answer : Outcome (list SheetFile))
  | Call_sync_sheet (spreadsheet : string) (answer : Outcome Result).

(** What a run of the endpoint acts on from outside: the world and the
    record of the service calls made so far, oldest first. *)
Record Env : Type := { world : World; calls : list Call }.

Record Store : Type := { env : Env; locals : Frame.t }.

(** ** The monad of Python statements: state and exceptions. A raise keeps
    the state reached so far. *)
Definition Py (A : Type) : Type := Store -> Outcome A * Store.

#[global] Instance Py_ret : MRet Py := fun A a st => (Ok a, st).

#[global] Instance Py_bind : MBind Py := fun A B k c st =>
  match c st with
  | (Ok a, st') => k a st'
  | (Raise e, st') => (Raise e, st')
  end.

Definition raise {A} (e : PyExc) : Py A := fun st => (Raise e, st).

(** The first [except] clause whose class the exception is an instance of. *)
Fixpoint matching_clause {A} (e : PyExc) (clauses : list (PyClass * (PyExc -> Py A)))
  : option (PyExc -> Py A) :=
  match clauses with
  | [] => None
  | (c, handler) :: rest =>
      if isinstance e c then Some handler else matching_clause e rest
  end.

(** [try: body except c1 as e: h1 except c2 as e: h2 ...]. *)
Definition try_except {A} (body : Py A) (clauses : list (PyClass * (PyExc -> Py A)))
  : Py A := fun st =>
  match body st with
  | (Ok a, st') => (Ok a, st')
  | (Raise e, st') =>
      match matching_clause e clauses with
      | Some handler => handler e st'
      | None => (Raise e, st')
      end
  end.

(** [for x in xs: body]. *)
Fixpoint for_each {A} (xs : list A) (body : A -> Py ()) : Py () :=
  match xs with
  | [] => mret ()
  | x :: rest => body x ;; for_each rest body
  end.

(** Reads and writes of the frame. *)
Definition get_locals : Py Frame.t := fun st => (Ok (locals st), st).

Definition set_locals (f : Frame.t) : Py () := fun st =>
  (Ok (), {| env := env st; locals := f |}).

(** [synced_sheets += 1] *)
Definition incr_synced_sheets : Py () :=
  f ← get_locals;
  set_locals {| Frame.synced_sheets := Frame.synced_sheets f + 1;
                Frame.failed_sheets := Frame.failed_sheets f;
                Frame.details := Frame.details f |}.

(** [failed_sheets += 1] *)
Definition incr_failed_sheets : Py () :=
  f ← get_locals;
  set_locals {| Frame.synced_sheets := Frame.synced_sheets f;
                Frame.failed_sheets := Frame.failed_sheets f + 1;
                Frame.details := Frame.details f |}.

(** [details.append(d)] *)
Definition details_append (d : Dict) : Py () :=
  f ← get_locals;
  set_locals {| Frame.synced_sheets := Frame.synced_sheets f;
                Frame.failed_sheets := Frame.failed_sheets f;
                Frame.details := Frame.details f ++ [d] |}.

(** [await service.method(arg)]: the service acts on the world and the
    call is recorded with its answer. *)
Definition await {A} (method : World -> Outcome A * World)
    (record : Outcome A -> Call) : Py A := fun st =>
  let '(answer, w) := method (world (env st)) in
  (answer, {| env := {| world := w; calls := calls (env st) ++ [record answer] |};
              locals := locals st |}).

(** ** The endpoint *)

(** [result.get("total_rows_written", 0)] *)
Definition rows_written (result : Result) : Z :=
  default 0%Z (total_rows_written result).

(** [len(result.get("sheets", []))] *)
Definition sheets_count (result : Result) : nat :=
  length (default [] (sheets result)).

(** The dictionary of lines 106-112. *)
Definition success_detail (sheet_file : SheetFile) (result : Result) : Dict :=
  {[ "file_name" := PStr (name sheet_file);
     "file_token" := PStr (token sheet_file);
     "status" := PStr "success";
     "rows_written" := PInt (rows_written result);
     "sheets_count" := PInt (Z.of_nat (sheets_count result)) ]}.

(** The dictionary of lines 115-120. *)
Definition failed_detail (sheet_file : SheetFile) (e : PyExc) : Dict :=
  {[ "file_name" := PStr (name sheet_file);
     "file_token" := PStr (token sheet_file);
     "status" := PStr "failed";
     "error" := PStr (py_str e) ]}.

(** The body of the [for] loop, lines 102-120. On a result of the type
    above the two reads of lines 110-111 return, so the statements after
    the sync call do not raise. *)
Definition sync_one (sync_service : SheetSyncService) (sheet_file : SheetFile) : Py () :=
  try_except
    (result ← await (sync_sheet sync_service (token sheet_file))
                    (Call_sync_sheet (token sheet_file));
     incr_synced_sheets;;
     details_append (success_detail sheet_file result))
    [ (cls_Exception, fun e =>
         incr_failed_sheets;;
         details_append (failed_detail sheet_file e)) ].

(** The two f-strings of lines 123-125; [pretty] is [str] on [int]. *)
Definition build_message (synced_sheets total_sheets failed_sheets : nat) : string :=
  let message :=
    "同步完成: " +:+ pretty synced_sheets +:+ "/" +:+ pretty total_sheets +:+ " 成功" in
  if (0 <? failed_sheets)%nat
  then message +:+ ", " +:+ pretty failed_sheets +:+ " 失败"
  else message.

(** The statements of the outer [try], lines 93-135. *)
Definition sync_folder_sheets_try (folder_token : string)
    (drive_service : DriveService) (sync_service : SheetSyncService)
  : Py FolderSyncResponse :=
  sheet_files ← await (get_sheets_in_folder drive_service folder_token)
                      (Call_get_sheets_in_folder folder_token);
  let total_sheets := length sheet_files in
  set_locals {| Frame.synced_sheets := 0; Frame.failed_sheets := 0; Frame.details := [] |};;
  for_each sheet_files (sync_one sync_service);;
  f ← get_locals;
  let success := (Frame.failed_sheets f =? 0)%nat in
  let message := build_message (Frame.synced_sheets f) total_sheets (Frame.failed_sheets f) in
  mret {| success := success;
          message := message;
          folder_token := folder_token;
          total_sheets := total_sheets;
          synced_sheets := Frame.synced_sheets f;
          failed_sheets := Frame.failed_sheets f;
          details := Frame.details f |}.

(** The body of the function: the outer [try] with its two clauses,
    lines 90-140. *)
Definition sync_folder_sheets_body (folder_token : string)
    (drive_service : DriveService) (sync_service : SheetSyncService)
  : Py FolderSyncResponse :=
  try_except (sync_folder_sheets_try folder_token drive_service sync_service)
    [ (cls_HTTPException, fun e => raise e);
      (cls_Exception, fun e =>
         raise (HTTPException 500 ("文件夹同步失败: " +:+ py_str e))) ].

(** A call of a function: a fresh frame, dropped when the call ends. *)
Definition invoke {A} (body : Py A) (e : Env) : Outcome A * Env :=
  let r := body {| env := e; locals := Frame.fresh |} in
  (r.1, env r.2).

(** [async def sync_folder_sheets(folder_token, drive_service, sync_service)] *)
Definition sync_folder_sheets (folder_token : string)
    (drive_service : DriveService) (sync_service : SheetSyncService)
  : Env -> Outcome FolderSyncResponse * Env :=
  invoke (sync_folder_sheets_body folder_token drive_service sync_service).

(** ** What a run is compared with *)

(** The answers of the sync service when it is called on the files one
    after the other, in the order of the list, with the world it leaves. *)
Fixpoint answers_of (sync_service : SheetSyncService) (sheet_files : list SheetFile)
    (w : World) : list (Outcome Result) * World :=
  match sheet_files with
  | [] => ([], w)
  | sheet_file :: rest =>
      let '(answer, w1) := sync_sheet sync_service (token sheet_file) w in
      let '(answers, w2) := answers_of sync_service rest w1 in
      (answer :: answers, w2)
  end.

(** The entry of [details] for a file, given the answer to its sync call. *)
Definition detail_of (sheet_file : SheetFile) (answer : Outcome Result) : Dict :=
  match answer with
  | Ok result => success_detail sheet_file result
  | Raise e => failed_detail sheet_file e
  end.

(** The record of the sync call made for a file. *)
Definition sync_call (sheet_file : SheetFile) (answer : Outcome Result) : Call :=
  Call_sync_sheet (token sheet_file) answer.

(** Whether a recorded call returned. *)
Definition call_ok (c : Call) : bool :=
  match c with
  | Call_get_sheets_in_folder _ answer => is_ok answer
  | Call_sync_sheet _ answer => is_ok answer
  end.

(** The calls a run added to the record. *)
Definition new_calls (before after : Env) : list Call :=
  drop (length (calls before)) (calls after).

(** How many of the answers are returns, and how many are raises. *)
Definition count_ok (answers : list (Outcome Result)) : nat :=
  length (filter (λ a, is_ok a = true) answers).

Definition count_raise (answers : list (Outcome Result)) : nat :=
  length (filter (λ a, is_ok a = false) answers).

(** The report of a run in which the listing returned [sheet_files] and
    the sync calls were answered by [answers]. *)
Definition report_of (folder : string) (sheet_files : list SheetFile)
    (answers : list (Outcome Result)) : FolderSyncResponse :=
  {| success := (count_raise answers =? 0)%nat;
     message := build_message (count_ok answers) (length sheet_files)
                              (count_raise answers);
     folder_token := folder;
     total_sheets := length sheet_files;
     synced_sheets := count_ok answers;
     failed_sheets := count_raise answers;
     details := zip_with detail_of sheet_files answers |}.

(** What the clauses of the outer [try] make of an exception. *)
Definition surfaced (err : PyExc) : PyExc :=
  if isinstance err cls_HTTPException then err
  else if isinstance err cls_Exception
       then HTTPException 500 ("文件夹同步失败: " +:+ py_str err)
       else err.

(** Whether [except Exception] stops every raise among the answers. *)
Definition all_caught (answers : list (Outcome Result)) : bool :=
  forallb caught answers.

(** The first exception among the answers that [except Exception] lets
    through. *)
Fixpoint first_uncaught (answers : list (Outcome Result)) : option PyExc :=
  match answers with
  | [] => None
  | Ok _ :: rest => first_uncaught rest
  | Raise e :: rest => if isinstance e cls_Exception then first_uncaught rest else Some e
  end.

(** The answers up to the first one that [except Exception] lets through,
    that one included. *)
Fixpoint played (answers : list (Outcome Result)) : list (Outcome Result) :=
  match answers with
  | [] => []
  | answer :: rest => if caught answer then answer :: played rest else [answer]
  end.

(** The value of [d["status"]]. *)
Definition status (d : Dict) : option PyVal := d !! "status".

End Endpoint.

Arguments DriveService World : clear implicits.
Arguments SheetSyncService World SheetRecord : clear implicits.
Arguments Env World SheetRecord : clear implicits.
Arguments Store World SheetRecord : clear implicits.
Arguments Call SheetRecord : clear implicits.

(** * A folder with three spreadsheets

    The scenario of the specification (section 8): folder [F1] holds
    [A], [B] and [C]; syncing [A] and [C] writes 10 and 5 rows, syncing [B]
    fails with "rate limited". Folder [F0] is empty, [D] fails with an
    [HTTPException], any other folder does not exist. The world counts the
    calls made on the platform. *)
Module Scenario.

Definition A : SheetFile := {| token := "shtA"; name := "A" |}.
Definition B : SheetFile := {| token := "shtB"; name := "B" |}.
Definition C : SheetFile := {| token := "shtC"; name := "C" |}.
Definition D : SheetFile := {| token := "shtD"; name := "D" |}.

Definition drive_service : DriveService nat :=
  {| get_sheets_in_folder := λ folder w,
       if decide (folder = "F1") then (Ok [A; B; C], S w)
       else if decide (folder = "F0") then (Ok [], S w)
       else if decide (folder = "F2") then (Ok [D; A], S w)
       else if decide (folder = "F3") then (Raise (HTTPException 404 "no such folder"), S w)
       else (Raise (OtherException "folder not found"), S w) |}.

Definition sync_service : SheetSyncService nat () :=
  {| sync_sheet := λ spreadsheet w,
       if decide (spreadsheet = "shtA")
       then (Ok {| total_rows_written := Some 10%Z; sheets := Some [(); ()] |}, S w)
       else if decide (spreadsheet = "shtC")
       then (Ok {| total_rows_written := Some 5%Z; sheets := Some [()] |}, S w)
       else if decide (spreadsheet = "shtD")
       then (Raise (HTTPException 429 "too many requests"), S w)
       else (Raise (OtherException "rate limited"), S w) |}.

(** [str(e)]: the message of an ordinary error, Starlette's
    ["{status_code}: {detail}"] for an [HTTPException], and the empty
    string of an exception raised without arguments. *)
Definition py_str (e : PyExc) : string :=
  match e with
  | HTTPException status_code detail => pretty status_code +:+ ": " +:+ detail
  | OtherException what => what
  | OutsideException _ => ""
  end.

Definition start : Env nat () := {| world := 0; calls := [] |}.

(** The run on [F1] from [start]: what the listing returns, the report
    the specification expects, and the state the run leaves. *)
Definition listed : list SheetFile := [A; B; C].

Definition result_A : SheetSyncResult () :=
  {| total_rows_written := Some 10%Z; sheets := Some [(); ()] |}.
Definition result_C : SheetSyncResult () :=
  {| total_rows_written := Some 5%Z; sheets := Some [()] |}.

Definition entry_A : Dict :=
  {[ "file_name" := PStr "A"; "file_token" := PStr "shtA";
     "status" := PStr "success";
     "rows_written" := PInt 10; "sheets_count" := PInt 2 ]}.
Definition entry_B : Dict :=
  {[ "file_name" := PStr "B"; "file_token" := PStr "shtB";
     "status" := PStr "failed"; "error" := PStr "rate limited" ]}.
Definition entry_C : Dict :=
  {[ "file_name" := PStr "C"; "file_token" := PStr "shtC";
     "status" := PStr "success";
     "rows_written" := PInt 5; "sheets_count" := PInt 1 ]}.

Definition report : FolderSyncResponse :=
  {| success := false;
     message := "同步完成: 2/3 成功, 1 失败";
     folder_token := "F1";
     total_sheets := 3;
     synced_sheets := 2;
     failed_sheets := 1;
     details := [entry_A; entry_B; entry_C] |}.

Definition calls_F1 : list (Call ()) :=
  [ Call_get_sheets_in_folder "F1" (Ok listed);
    Call_sync_sheet "shtA" (Ok result_A);
    Call_sync_sheet "shtB" (Raise (OtherException "rate limited"));
    Call_sync_sheet "shtC" (Ok result_C) ].

Definition finish : Env nat () := {| world := 4; calls := calls_F1 |}.

(** The state after a second run on [F1]. *)
Definition finish_again : Env nat () :=
  {| world := 8; calls := calls_F1 ++ calls_F1 |}.

(** The report on the empty folder [F0]. *)
Definition empty_report : FolderSyncResponse :=
  {| success := true;
     message := "同步完成: 0/0 成功";
     folder_token := "F0";
     total_sheets := 0;
     synced_sheets := 0;
     failed_sheets := 0;
     details := [] |}.

(** A sync service whose result depends on the world: it writes as many
    rows as calls were made before; [D] fails as above. Two runs on [F2],
    the second after the first, with the reports and the states they
    leave. *)
Definition counting_sync_service : SheetSyncService nat () :=
  {| sync_sheet := λ spreadsheet w,
       if decide (spreadsheet = "shtD")
       then (Raise (HTTPException 429 "too many requests"), S w)
       else (Ok {| total_rows_written := Some (Z.of_nat w); sheets := None |}, S w) |}.

Definition entry_D : Dict :=
  {[ "file_name" := PStr "D"; "file_token" := PStr "shtD";
     "status" := PStr "failed"; "error" := PStr "429: too many requests" ]}.

Definition counted_entry (rows : Z) : Dict :=
  {[ "file_name" := PStr "A"; "file_token" := PStr "shtA";
     "status" := PStr "success";
     "rows_written" := PInt rows; "sheets_count" := PInt 0 ]}.

Definition counted_report (rows : Z) : FolderSyncResponse :=
  {| success := false;
     message := "同步完成: 1/2 成功, 1 失败";
     folder_token := "F2";
     total_sheets := 2;
     synced_sheets := 1;
     failed_sheets := 1;
     details := [entry_D; counted_entry rows] |}.

Definition counted_calls (rows : Z) : list (Call ()) :=
  [ Call_get_sheets_in_folder "F2" (Ok [D; A]);
    Call_sync_sheet "shtD" (Raise (HTTPException 429 "too many requests"));
    Call_sync_sheet "shtA" (Ok {| total_rows_written := Some rows; sheets := None |}) ].

Definition counted_once : Env nat () :=
  {| world := 3; calls := counted_calls 2 |}.

Definition counted_twice : Env nat () :=
  {| world := 6; calls := counted_calls 2 ++ counted_calls 5 |}.

End Scenario.

(** * The other endpoints of the file *)

(** [class SyncResponse(BaseModel)], lines 35-39; [details] is the
    dictionary the sync service returned, or [None]. *)
Module SyncResponse.
Record t (SheetRecord : Type) : Type :=
  { success : bool;
    message : string;
    details : option (SheetSyncResult SheetRecord) }.
Arguments success {SheetRecord} _.
Arguments message {SheetRecord} _.
Arguments details {SheetRecord} _.
End SyncResponse.

Section OtherEndpoints.

Context {World SheetRecord : Type}.
Variable py_str : PyExc -> string.

(** The body of [sync_sheet_to_redis], lines 76-80. *)
Definition sync_sheet_to_redis_body (sheet_token : string)
    (sync_service : SheetSyncService World SheetRecord)
  : @Py World SheetRecord (SyncResponse.t SheetRecord) :=
  try_except
    (result ← await (sync_sheet sync_service sheet_token) (Call_sync_sheet sheet_token);
     mret {| SyncResponse.success := true;
             SyncResponse.message := "同步完成";
             SyncResponse.details := Some result |})
    [ (cls_Exception, fun e =>
         raise (HTTPException 500 ("同步失败: " +:+ py_str e))) ].

(** [async def sync_sheet_to_redis(sheet_token, sync_service)] *)
Definition sync_sheet_to_redis (sheet_token : string)
    (sync_service : SheetSyncService World SheetRecord)
  : Env World SheetRecord -> Outcome (SyncResponse.t SheetRecord) * Env World SheetRecord :=
  invoke (sync_sheet_to_redis_body sheet_token sync_service).


(** Whether a recorded call is a sync of the given spreadsheet. *)
Definition is_sync_of (spreadsheet : string) (c : Call SheetRecord) : bool :=
  match c with
  | Call_sync_sheet t _ => bool_decide (t = spreadsheet)
  | Call_get_sheets_in_folder _ _ => false
  end.

End OtherEndpoints.

(** The keys of the two kinds of entries of [details]. *)
Definition success_keys : gset string :=
  {[ "file_name"; "file_token"; "status"; "rows_written"; "sheets_count" ]}.

Definition failed_keys : gset string :=
  {[ "file_name"; "file_token"; "status"; "error" ]}.

(** * A folder synced in two halves

    A drive service that leaves the world as it is: [G] holds [A], [B] and
    [C], [G1] holds [A], [G2] holds [B] and [C]. The sync service is the one
    of the scenario that writes as many rows as calls were made before. *)
Module Halves.

Import Scenario.

Definition drive_service : DriveService nat :=
  {| get_sheets_in_folder := λ folder w,
       if decide (folder = "G") then (Ok [A; B; C], w)
       else if decide (folder = "G1") then (Ok [A], w)
       else if decide (folder = "G2") then (Ok [B; C], w)
       else if decide (folder = "GG") then (Ok [A; B; A], w)
       else (Raise (OtherException "folder not found"), w) |}.

Definition counted (sheet_file : SheetFile) (rows : Z) : Dict :=
  {[ "file_name" := PStr (name sheet_file); "file_token" := PStr (token sheet_file);
     "status" := PStr "success";
     "rows_written" := PInt rows; "sheets_count" := PInt 0 ]}.

Definition counted_answer (rows : Z) : Outcome (SheetSyncResult ()) :=
  Ok {| total_rows_written := Some rows; sheets := None |}.

Definition report_whole : FolderSyncResponse :=
  {| success := true; message := "同步完成: 3/3 成功"; folder_token := "G";
     total_sheets := 3; synced_sheets := 3; failed_sheets := 0;
     details := [counted A 0; counted B 1; counted C 2] |}.

Definition report_first : FolderSyncResponse :=
  {| success := true; message := "同步完成: 1/1 成功"; folder_token := "G1";
     total_sheets := 1; synced_sheets := 1; failed_sheets := 0;
     details := [counted A 0] |}.

Definition report_second : FolderSyncResponse :=
  {| success := true; message := "同步完成: 2/2 成功"; folder_token := "G2";
     total_sheets := 2; synced_sheets := 2; failed_sheets := 0;
     details := [counted B 1; counted C 2] |}.

Definition after_whole : Env nat () :=
  {| world := 3;
     calls := [ Call_get_sheets_in_folder "G" (Ok [A; B; C]);
                Call_sync_sheet "shtA" (counted_answer 0);
                Call_sync_sheet "shtB" (counted_answer 1);
                Call_sync_sheet "shtC" (counted_answer 2) ] |}.

Definition after_first : Env nat () :=
  {| world := 1;
     calls := [ Call_get_sheets_in_folder "G1" (Ok [A]);
                Call_sync_sheet "shtA" (counted_answer 0) ] |}.

Definition after_second : Env nat () :=
  {| world := 3;
     calls := calls after_first
              ++ [ Call_get_sheets_in_folder "G2" (Ok [B; C]);
                   Call_sync_sheet "shtB" (counted_answer 1);
                   Call_sync_sheet "shtC" (counted_answer 2) ] |}.

(** The run on [GG], where [A] is listed twice, with the scenario's
    sync service. *)
Definition report_twice_listed : FolderSyncResponse :=
  {| success := false; message := "同步完成: 2/3 成功, 1 失败"; folder_token := "GG";
     total_sheets := 3; synced_sheets := 2; failed_sheets := 1;
     details := [entry_A; entry_B; entry_A] |}.

Definition after_twice_listed : Env nat () :=
  {| world := 3;
     calls := [ Call_get_sheets_in_folder "GG" (Ok [A; B; A]);
                Call_sync_sheet "shtA" (Ok result_A);
                Call_sync_sheet "shtB" (Raise (OtherException "rate limited"));
                Call_sync_sheet "shtA" (Ok result_A) ] |}.

End Halves.

(** * A cancelled request

    The sync of [B] is cancelled: the [await] raises
    [asyncio.CancelledError], which is outside [Exception]. Folder [FX] is
    one whose listing is cancelled. *)
Module Cancelled.

Import Scenario.

Definition cancelled : PyExc := OutsideException "CancelledError".

Definition drive_service : DriveService nat :=
  {| get_sheets_in_folder := λ folder w,
       if decide (folder = "FX") then (Raise cancelled, S w)
       else (Ok [A; B; C], S w) |}.

Definition sync_service : SheetSyncService nat () :=
  {| sync_sheet := λ spreadsheet w,
       if decide (spreadsheet = "shtB") then (Raise cancelled, S w)
       else (Ok result_A, S w) |}.


End Cancelled.

(** * Properties *)

Section Properties.

Context {World SheetRecord : Type}.
Variable py_str : PyExc -> string.

Implicit Types (drive_service : DriveService World)
               (sync_service : SheetSyncService World SheetRecord)
               (sheet_file : SheetFile) (sheet_files : list SheetFile)
               (answers : list (Outcome (SheetSyncResult SheetRecord)))
               (w : World) (cs : list (Call SheetRecord))
               (fr : Frame.t) (e : Env World SheetRecord).

(** ** One iteration of the loop *)

Lemma sync_one_step sync_service sheet_file w cs fr answer w1 :
  sync_sheet sync_service (token sheet_file) w = (answer, w1) ->
  caught answer = true ->
  sync_one py_str sync_service sheet_file
    {| env := {| world := w; calls := cs |}; locals := fr |} =
  (Ok (),
   {| env := {| world := w1; calls := cs ++ [sync_call sheet_file answer] |};
      locals :=
        {| Frame.synced_sheets :=
             Frame.synced_sheets fr + (if is_ok answer then 1 else 0);
           Frame.failed_sheets :=
             Frame.failed_sheets fr + (if is_ok answer then 0 else 1);
           Frame.details := Frame.details fr ++ [detail_of py_str sheet_file answer] |} |}).
Proof.
  intros Hcall Hcaught.
  unfold sync_one, try_except, await, mbind, Py_bind; simpl.
  rewrite Hcall.
  destruct answer as [result | err]; simpl.
  - rewrite Nat.add_0_r. reflexivity.
  - rewrite Nat.add_0_r. by destruct err.
Qed.

(** An exception outside [Exception] leaves the iteration as it came. *)
Lemma sync_one_uncaught sync_service sheet_file w cs fr err w1 :
  sync_sheet sync_service (token sheet_file) w = (Raise err, w1) ->
  isinstance err cls_Exception = false ->
  sync_one py_str sync_service sheet_file
    {| env := {| world := w; calls := cs |}; locals := fr |} =
  (Raise err,
   {| env := {| world := w1; calls := cs ++ [sync_call sheet_file (Raise err)] |};
      locals := fr |}).
Proof.
  intros Hcall Hout.
  unfold sync_one, try_except, await, mbind, Py_bind; simpl.
  rewrite Hcall. by destruct err.
Qed.

(** ** The whole loop *)

Lemma count_ok_cons (answer : Outcome (SheetSyncResult SheetRecord)) answers :
  count_ok (answer :: answers) = (if is_ok answer then 1 else 0) + count_ok answers.
Proof. unfold count_ok. rewrite filter_cons. destruct answer; reflexivity. Qed.

Lemma count_raise_cons (answer : Outcome (SheetSyncResult SheetRecord)) answers :
  count_raise (answer :: answers) = (if is_ok answer then 0 else 1) + count_raise answers.
Proof. unfold count_raise. rewrite filter_cons. destruct answer; reflexivity. Qed.

Lemma count_ok_raise answers : count_ok answers + count_raise answers = length answers.
Proof.
  induction answers as [| answer answers IH]; [reflexivity |].
  rewrite count_ok_cons, count_raise_cons. destruct answer; simpl; lia.
Qed.

Lemma answers_of_length sync_service sheet_files w :
  length (answers_of sync_service sheet_files w).1 = length sheet_files.
Proof.
  revert w. induction sheet_files as [| sheet_file rest IH]; intros w; [reflexivity |].
  simpl. destruct (sync_sheet _ _ w) as [answer w1].
  specialize (IH w1). destruct (answers_of sync_service rest w1) as [answers w2].
  simpl in *. by rewrite IH.
Qed.

Lemma first_uncaught_outside answers err :
  first_uncaught answers = Some err -> isinstance err cls_Exception = false.
Proof.
  induction answers as [| [result | err0] answers IH]; cbn [first_uncaught].
  - discriminate.
  - exact IH.
  - destruct (isinstance err0 cls_Exception) eqn:Hcls; [exact IH |].
    intros [= <-]. exact Hcls.
Qed.

Lemma all_caught_first_uncaught answers :
  all_caught answers = true <-> first_uncaught answers = None.
Proof.
  induction answers as [| [result | err] answers IH];
    cbn [first_uncaught all_caught forallb caught].
  - done.
  - exact IH.
  - destruct (isinstance err cls_Exception); cbn [andb]; [exact IH |].
    split; discriminate.
Qed.

Lemma for_each_sync_one sync_service sheet_files w cs fr answers w2 :
  answers_of sync_service sheet_files w = (answers, w2) ->
  all_caught answers = true ->
  for_each sheet_files (sync_one py_str sync_service)
    {| env := {| world := w; calls := cs |}; locals := fr |} =
  (Ok (),
   {| env := {| world := w2; calls := cs ++ zip_with sync_call sheet_files answers |};
      locals :=
        {| Frame.synced_sheets := Frame.synced_sheets fr + count_ok answers;
           Frame.failed_sheets := Frame.failed_sheets fr + count_raise answers;
           Frame.details :=
             Frame.details fr ++ zip_with (detail_of py_str) sheet_files answers |} |}).
Proof.
  revert w cs fr answers w2.
  induction sheet_files as [| sheet_file rest IH]; intros w cs fr answers w2 Hans Hall.
  - simpl in Hans. injection Hans as <- <-. simpl.
    unfold count_ok, count_raise; simpl.
    rewrite !Nat.add_0_r, !app_nil_r. by destruct fr.
  - simpl in Hans.
    destruct (sync_sheet sync_service (token sheet_file) w) as [answer w1] eqn:Hcall.
    destruct (answers_of sync_service rest w1) as [answers' w2'] eqn:Hrest.
    injection Hans as <- <-.
    apply andb_true_iff in Hall as [Hcaught Hall].
    cbn [for_each]. unfold mbind at 1, Py_bind at 1.
    rewrite (sync_one_step _ _ _ _ _ _ _ Hcall Hcaught).
    rewrite (IH _ _ _ _ _ Hrest Hall). simpl.
    rewrite count_ok_cons, count_raise_cons, <- !app_assoc, !Nat.add_assoc.
    reflexivity.
Qed.

(** The loop stops at the first exception outside [Exception]: the files
    after it are not synced. *)
Lemma for_each_sync_one_abort sync_service sheet_files w cs fr answers w2 err :
  answers_of sync_service sheet_files w = (answers, w2) ->
  first_uncaught answers = Some err ->
  ∃ w' fr',
    for_each sheet_files (sync_one py_str sync_service)
      {| env := {| world := w; calls := cs |}; locals := fr |} =
    (Raise err,
     {| env := {| world := w';
                  calls := cs ++ zip_with sync_call sheet_files (played answers) |};
        locals := fr' |}).
Proof.
  revert w cs fr answers w2.
  induction sheet_files as [| sheet_file rest IH]; intros w cs fr answers w2 Hans Hfirst.
  - simpl in Hans. injection Hans as <- <-. discriminate Hfirst.
  - simpl in Hans.
    destruct (sync_sheet sync_service (token sheet_file) w) as [answer w1] eqn:Hcall.
    destruct (answers_of sync_service rest w1) as [answers' w2'] eqn:Hrest.
    injection Hans as <- <-.
    cbn [for_each]. unfold mbind at 1, Py_bind at 1.
    destruct (caught answer) eqn:Hcaught.
    + rewrite (sync_one_step _ _ _ _ _ _ _ Hcall Hcaught).
      assert (Hfirst' : first_uncaught answers' = Some err).
      { destruct answer as [result | err0]; cbn [caught first_uncaught] in *; [done |].
        by rewrite Hcaught in Hfirst. }
      destruct (IH w1 (cs ++ [sync_call sheet_file answer])%list
                  {| Frame.synced_sheets :=
                       Frame.synced_sheets fr + (if is_ok answer then 1 else 0);
                     Frame.failed_sheets :=
                       Frame.failed_sheets fr + (if is_ok answer then 0 else 1);
                     Frame.details :=
                       Frame.details fr ++ [detail_of py_str sheet_file answer] |}
                  _ _ Hrest Hfirst')
        as (w' & fr' & ->).
      exists w', fr'. cbn [played]. rewrite Hcaught. simpl.
      by rewrite <- app_assoc.
    + destruct answer as [result | err0]; [discriminate Hcaught |].
      cbn [caught] in Hcaught. cbn [first_uncaught] in Hfirst.
      rewrite Hcaught in Hfirst. injection Hfirst as ->.
      rewrite (sync_one_uncaught _ _ _ _ _ _ _ Hcall Hcaught).
      exists w1, fr. cbn [played caught]. rewrite Hcaught. by destruct rest.
Qed.

(** ** The function, by the answer of the folder listing *)

Lemma bind_ok {A B} (c : Py A) (k : A -> Py B) (st st' : Store World SheetRecord) a :
  c st = (Ok a, st') -> (c ≫= k) st = k a st'.
Proof. intros H. unfold mbind, Py_bind. by rewrite H. Qed.

Lemma bind_raise {A B} (c : Py A) (k : A -> Py B) (st st' : Store World SheetRecord) err :
  c st = (Raise err, st') -> (c ≫= k) st = (Raise err, st').
Proof. intros H. unfold mbind, Py_bind. by rewrite H. Qed.

Lemma await_listing drive_service folder e fr answer w1 :
  get_sheets_in_folder drive_service folder (world e) = (answer, w1) ->
  await (get_sheets_in_folder drive_service folder) (Call_get_sheets_in_folder folder)
    {| env := e; locals := fr |} =
  (answer,
   {| env := {| world := w1;
                calls := calls e ++ [Call_get_sheets_in_folder folder answer] |};
      locals := fr |}).
Proof. intros H. unfold await; simpl. by rewrite H. Qed.

Lemma sync_folder_sheets_try_listed folder drive_service sync_service e fr
    sheet_files w1 answers w2 :
  get_sheets_in_folder drive_service folder (world e) = (Ok sheet_files, w1) ->
  answers_of sync_service sheet_files w1 = (answers, w2) ->
  all_caught answers = true ->
  ∃ fr',
    sync_folder_sheets_try py_str folder drive_service sync_service
      {| env := e; locals := fr |} =
    (Ok (report_of py_str folder sheet_files answers),
     {| env := {| world := w2;
                  calls := calls e ++ Call_get_sheets_in_folder folder (Ok sheet_files)
                                      :: zip_with sync_call sheet_files answers |};
        locals := fr' |}).
Proof.
  intros Hlist Hans Hall. eexists.
  unfold sync_folder_sheets_try.
  rewrite (bind_ok _ _ _ _ _ (await_listing _ _ _ _ _ _ Hlist)).
  erewrite bind_ok by reflexivity.
  erewrite bind_ok by (by apply for_each_sync_one).
  erewrite bind_ok by reflexivity.
  simpl. rewrite <- app_assoc. reflexivity.
Qed.

Lemma sync_folder_sheets_listed folder drive_service sync_service e
    sheet_files w1 answers w2 :
  get_sheets_in_folder drive_service folder (world e) = (Ok sheet_files, w1) ->
  answers_of sync_service sheet_files w1 = (answers, w2) ->
  all_caught answers = true ->
  sync_folder_sheets py_str folder drive_service sync_service e =
  (Ok (report_of py_str folder sheet_files answers),
   {| world := w2;
      calls := calls e ++ Call_get_sheets_in_folder folder (Ok sheet_files)
                          :: zip_with sync_call sheet_files answers |}).
Proof.
  intros Hlist Hans Hall.
  destruct (sync_folder_sheets_try_listed folder _ _ e Frame.fresh _ _ _ _ Hlist Hans Hall)
    as [fr' Htry].
  unfold sync_folder_sheets, invoke, sync_folder_sheets_body, try_except.
  rewrite Htry. reflexivity.
Qed.

Lemma outer_try_raise folder drive_service sync_service
    (st st' : Store World SheetRecord) err :
  sync_folder_sheets_try py_str folder drive_service sync_service st = (Raise err, st') ->
  sync_folder_sheets_body py_str folder drive_service sync_service st =
  (Raise (surfaced py_str err), st').
Proof.
  intros Htry. unfold sync_folder_sheets_body, try_except. rewrite Htry.
  unfold surfaced. destruct err as [code detail | what | class_name]; reflexivity.
Qed.

Lemma sync_folder_sheets_not_listed folder drive_service sync_service e err w1 :
  get_sheets_in_folder drive_service folder (world e) = (Raise err, w1) ->
  sync_folder_sheets py_str folder drive_service sync_service e =
  (Raise (surfaced py_str err),
   {| world := w1;
      calls := calls e ++ [Call_get_sheets_in_folder folder (Raise err)] |}).
Proof.
  intros Hlist.
  unfold sync_folder_sheets, invoke.
  rewrite (outer_try_raise _ _ _ _ _ err
             (bind_raise _ _ _ _ _ (await_listing _ _ _ Frame.fresh _ _ Hlist))).
  reflexivity.
Qed.

(** When a sync raises outside [Exception], the endpoint raises that
    exception as it is, after the calls played so far. *)
Lemma sync_folder_sheets_aborted folder drive_service sync_service e
    sheet_files w1 answers w2 err :
  get_sheets_in_folder drive_service folder (world e) = (Ok sheet_files, w1) ->
  answers_of sync_service sheet_files w1 = (answers, w2) ->
  first_uncaught answers = Some err ->
  ∃ w',
    sync_folder_sheets py_str folder drive_service sync_service e =
    (Raise err,
     {| world := w';
        calls := calls e ++ Call_get_sheets_in_folder folder (Ok sheet_files)
                            :: zip_with sync_call sheet_files (played answers) |}).
Proof.
  intros Hlist Hans Hfirst.
  destruct (for_each_sync_one_abort sync_service sheet_files w1
              (calls e ++ [Call_get_sheets_in_folder folder (Ok sheet_files)])%list
              {| Frame.synced_sheets := 0; Frame.failed_sheets := 0; Frame.details := [] |}
              answers w2 err Hans Hfirst) as (w' & fr' & Hloop).
  exists w'.
  assert (Htry : sync_folder_sheets_try py_str folder drive_service sync_service
                   {| env := e; locals := Frame.fresh |}
                 = (Raise err,
                    {| env := {| world := w';
                                 calls := (calls e
                                           ++ [Call_get_sheets_in_folder folder
                                                 (Ok sheet_files)])
                                          ++ zip_with sync_call sheet_files
                                               (played answers) |};
                       locals := fr' |})).
  { unfold sync_folder_sheets_try.
    rewrite (bind_ok _ _ _ _ _ (await_listing _ _ _ _ _ _ Hlist)).
    erewrite bind_ok by reflexivity.
    by erewrite bind_raise by exact Hloop. }
  unfold sync_folder_sheets, invoke.
  rewrite (outer_try_raise _ _ _ _ _ _ Htry). simpl.
  unfold surfaced. pose proof (first_uncaught_outside _ _ Hfirst) as Hout.
  destruct err; try discriminate Hout. simpl. by rewrite <- app_assoc.
Qed.

(** A returned report comes from a listing that returned. *)
Lemma sync_folder_sheets_returns_inv folder drive_service sync_service e r e' :
  sync_folder_sheets py_str folder drive_service sync_service e = (Ok r, e') ->
  ∃ sheet_files w1 answers,
    get_sheets_in_folder drive_service folder (world e) = (Ok sheet_files, w1)
    ∧ answers_of sync_service sheet_files w1 = (answers, world e')
    ∧ r = report_of py_str folder sheet_files answers
    ∧ calls e' = (calls e ++ Call_get_sheets_in_folder folder (Ok sheet_files)
                            :: zip_with sync_call sheet_files answers)%list.
Proof.
  intros Hrun.
  destruct (get_sheets_in_folder drive_service folder (world e))
    as [[sheet_files | err] w1] eqn:Hlist.
  - destruct (answers_of sync_service sheet_files w1) as [answers w2] eqn:Hans.
    destruct (first_uncaught answers) as [err |] eqn:Hfirst.
    + destruct (sync_folder_sheets_aborted _ _ _ _ _ _ _ _ _ Hlist Hans Hfirst)
        as [w' Habort].
      rewrite Habort in Hrun. discriminate Hrun.
    + apply all_caught_first_uncaught in Hfirst.
      rewrite (sync_folder_sheets_listed _ _ _ _ _ _ _ _ Hlist Hans Hfirst) in Hrun.
      injection Hrun as <- <-. by exists sheet_files, w1, answers.
  - rewrite (sync_folder_sheets_not_listed _ _ _ _ _ _ Hlist) in Hrun.
    discriminate Hrun.
Qed.

(** In a run that returned a report, every raise of the sync service was
    an instance of [Exception]. *)
Lemma sync_folder_sheets_returns_caught folder drive_service sync_service e r e'
    sheet_files w1 :
  get_sheets_in_folder drive_service folder (world e) = (Ok sheet_files, w1) ->
  sync_folder_sheets py_str folder drive_service sync_service e = (Ok r, e') ->
  all_caught (answers_of sync_service sheet_files w1).1 = true.
Proof.
  intros Hlist Hrun.
  destruct (answers_of sync_service sheet_files w1) as [answers w2] eqn:Hans.
  apply all_caught_first_uncaught. simpl.
  destruct (first_uncaught answers) as [err |] eqn:Hfirst; [| done].
  destruct (sync_folder_sheets_aborted _ _ _ _ _ _ _ _ _ Hlist Hans Hfirst)
    as [w' Habort].
  rewrite Habort in Hrun. discriminate Hrun.
Qed.

(** Reduces a returned report to [report_of] of the listed files and of the
    answers of the sync service. *)
Ltac invert_run Hrun :=
  let sheet_files := fresh "sheet_files" in
  let w1 := fresh "w1" in
  let answers := fresh "answers" in
  let Hlist := fresh "Hlist" in
  let Hans := fresh "Hans" in
  let Hcalls := fresh "Hcalls" in
  apply sync_folder_sheets_returns_inv in Hrun
    as (sheet_files & w1 & answers & Hlist & Hans & -> & Hcalls).

Lemma answers_of_length_eq sync_service sheet_files w answers w2 :
  answers_of sync_service sheet_files w = (answers, w2) ->
  length answers = length sheet_files.
Proof.
  intros Hans. pose proof (answers_of_length sync_service sheet_files w) as Hlen.
  by rewrite Hans in Hlen.
Qed.

Lemma new_calls_app e e' cs :
  calls e' = (calls e ++ cs)%list -> new_calls e e' = cs.
Proof. intros H. unfold new_calls. rewrite H. apply drop_app_length. Qed.

Lemma details_lookup sheet_files answers i sheet_file answer :
  sheet_files !! i = Some sheet_file ->
  answers !! i = Some answer ->
  zip_with (detail_of py_str) sheet_files answers !! i
  = Some (detail_of py_str sheet_file answer).
Proof. intros Hf Ha. rewrite lookup_zip_with, Hf; simpl. by rewrite Ha. Qed.

Lemma status_detail_of sheet_file (answer : Outcome (SheetSyncResult SheetRecord)) :
  status (detail_of py_str sheet_file answer)
  = Some (PStr (if is_ok answer then "success" else "failed")).
Proof. destruct answer; reflexivity. Qed.

Lemma file_token_detail_of sheet_file (answer : Outcome (SheetSyncResult SheetRecord)) :
  detail_of py_str sheet_file answer !! "file_token" = Some (PStr (token sheet_file)).
Proof. destruct answer; reflexivity. Qed.

Lemma file_name_detail_of sheet_file (answer : Outcome (SheetSyncResult SheetRecord)) :
  detail_of py_str sheet_file answer !! "file_name" = Some (PStr (name sheet_file)).
Proof. destruct answer; reflexivity. Qed.

(** A column of [details] that depends on the file only is that column of
    the listing. *)
Lemma details_column {X} (col : Dict -> X) (of_file : SheetFile -> X)
    sheet_files answers :
  (∀ sheet_file (answer : Outcome (SheetSyncResult SheetRecord)),
     col (detail_of py_str sheet_file answer) = of_file sheet_file) ->
  length answers = length sheet_files ->
  col <$> zip_with (detail_of py_str) sheet_files answers = of_file <$> sheet_files.
Proof.
  intros Hcol. revert answers.
  induction sheet_files as [| sheet_file rest IH]; intros [| answer answers] Hlen;
    try discriminate Hlen; [reflexivity |].
  simpl. rewrite Hcol. f_equal. apply IH. by injection Hlen.
Qed.

(** The entries of [details] with a given status are as many as the
    answers of that kind. *)
Lemma details_by_status sheet_files answers :
  length answers = length sheet_files ->
  length (filter (λ d, status d = Some (PStr "success"))
                 (zip_with (detail_of py_str) sheet_files answers)) = count_ok answers
  ∧ length (filter (λ d, status d = Some (PStr "failed"))
                   (zip_with (detail_of py_str) sheet_files answers)) = count_raise answers.
Proof.
  revert answers.
  induction sheet_files as [| sheet_file rest IH]; intros [| answer answers] Hlen;
    try discriminate Hlen; [by split |].
  injection Hlen as Hlen. destruct (IH _ Hlen) as [IHs IHf].
  cbn [zip_with]. rewrite count_ok_cons, count_raise_cons, !filter_cons.
  pose proof (status_detail_of sheet_file answer) as Hst.
  destruct answer as [result | err]; simpl in Hst;
    repeat case_decide; try congruence; simpl; by rewrite IHs, IHf.
Qed.

(** ** The invariants of the report *)

(** C1: when the listing returns [sheet_files], a returned report has
    [total_sheets] equal to the number of listed files, to
    [synced_sheets + failed_sheets], and to the length of [details]. *)
Theorem counts_add_up folder drive_service sync_service e sheet_files w1 r e' :
  get_sheets_in_folder drive_service folder (world e) = (Ok sheet_files, w1) ->
  sync_folder_sheets py_str folder drive_service sync_service e = (Ok r, e') ->
  total_sheets r = length sheet_files
  ∧ total_sheets r = synced_sheets r + failed_sheets r
  ∧ synced_sheets r + failed_sheets r = length (details r).
Proof.
  intros Hlist Hrun. invert_run Hrun.
  rewrite Hlist in Hlist0. injection Hlist0 as <- <-.
  apply answers_of_length_eq in Hans. simpl.
  rewrite length_zip_with_l_eq by done.
  pose proof (count_ok_raise answers). lia.
Qed.

(** C2: in a returned report, [success] is true exactly when
    [failed_sheets] is 0. *)
Theorem success_iff_none_failed folder drive_service sync_service e r e' :
  sync_folder_sheets py_str folder drive_service sync_service e = (Ok r, e') ->
  success r = true <-> failed_sheets r = 0.
Proof.
  intros Hrun. invert_run Hrun. simpl. apply Nat.eqb_eq.
Qed.

(** C6: when the listing returns the empty list, the endpoint returns the
    report with the three counts 0, [success] true and no details. *)
Theorem empty_folder_report folder drive_service sync_service e w1 :
  get_sheets_in_folder drive_service folder (world e) = (Ok [], w1) ->
  ∃ r e',
    sync_folder_sheets py_str folder drive_service sync_service e = (Ok r, e')
    ∧ total_sheets r = 0 ∧ synced_sheets r = 0 ∧ failed_sheets r = 0
    ∧ success r = true ∧ details r = [].
Proof.
  intros Hlist.
  eexists _, _. split.
  - by apply (sync_folder_sheets_listed _ _ sync_service _ _ _ [] w1 Hlist).
  - by repeat split.
Qed.

(** ** Failures of single files and of the listing *)


(** C4: when the listing raises, the endpoint returns no report: it raises
    one exception, the [HTTPException] of the listing itself, or an
    [HTTPException] 500 made of [str] of the error when that is another
    instance of [Exception], or else the exception of the listing as it is;
    and it has made no call but the listing. *)
Theorem listing_failure_aborts folder drive_service sync_service e err w1 :
  get_sheets_in_folder drive_service folder (world e) = (Raise err, w1) ->
  sync_folder_sheets py_str folder drive_service sync_service e
  = (Raise (if isinstance err cls_HTTPException then err
            else if isinstance err cls_Exception
                 then HTTPException 500 ("文件夹同步失败: " +:+ py_str err)
                 else err),
     {| world := w1;
        calls := calls e ++ [Call_get_sheets_in_folder folder (Raise err)] |})
  ∧ ∀ r e', sync_folder_sheets py_str folder drive_service sync_service e ≠ (Ok r, e').
Proof.
  intros Hlist.
  pose proof (sync_folder_sheets_not_listed folder _ sync_service _ _ _ Hlist) as Hrun.
  split; [exact Hrun |].
  intros r e' Hret. rewrite Hrun in Hret. discriminate Hret.
Qed.

(** ** The entries of [details] *)

(** C5: [details] has one entry per listed file, the i-th entry being that
    of the i-th file and of the answer to its sync call, so tokens and names
    come in the order of the listing; the entries with status "failed" are
    as many as the syncs that raised, those with status "success" as many
    as the syncs that returned; when one sync raised, that is one failure
    and [N - 1] successes. *)
Theorem details_follow_listing folder drive_service sync_service e sheet_files w1 r e' :
  get_sheets_in_folder drive_service folder (world e) = (Ok sheet_files, w1) ->
  sync_folder_sheets py_str folder drive_service sync_service e = (Ok r, e') ->
  let answers := (answers_of sync_service sheet_files w1).1 in
  let failures := filter (λ d, status d = Some (PStr "failed")) (details r) in
  let successes := filter (λ d, status d = Some (PStr "success")) (details r) in
  length (details r) = length sheet_files
  ∧ (∀ i sheet_file, sheet_files !! i = Some sheet_file ->
       ∃ answer, answers !! i = Some answer
                 ∧ details r !! i = Some (detail_of py_str sheet_file answer))
  ∧ (λ d : Dict, d !! "file_token") <$> details r
    = (λ sheet_file, Some (PStr (token sheet_file))) <$> sheet_files
  ∧ (λ d : Dict, d !! "file_name") <$> details r
    = (λ sheet_file, Some (PStr (name sheet_file))) <$> sheet_files
  ∧ length failures = count_raise answers
  ∧ length successes = count_ok answers
  ∧ (count_raise answers = 1 ->
     length failures = 1 ∧ length successes = length sheet_files - 1).
Proof.
  intros Hlist Hrun answers. invert_run Hrun.
  rewrite Hlist in Hlist0. injection Hlist0 as <- <-.
  subst answers. rewrite Hans. simpl.
  pose proof (answers_of_length_eq _ _ _ _ _ Hans) as Hlen.
  destruct (details_by_status sheet_files answers0 Hlen) as [Hs Hf].
  pose proof (count_ok_raise answers0) as Hsum.
  repeat split.
  - by rewrite length_zip_with_l_eq.
  - intros i sheet_file Hfile.
    destruct (lookup_lt_is_Some_2 answers0 i) as [answer Hanswer].
    { rewrite Hlen. by eapply lookup_lt_Some. }
    exists answer. split; [done |]. by apply details_lookup.
  - apply details_column; [apply file_token_detail_of | done].
  - apply details_column; [apply file_name_detail_of | done].
  - done.
  - done.
  - by rewrite Hf.
  - rewrite Hs. lia.
Qed.

(** C7: the entry of a file whose sync returned [result] holds the file's
    name and token, the status "success",
    [result.get("total_rows_written", 0)] as [rows_written] and
    [len(result.get("sheets", []))] as [sheets_count]: the value of
    [total_rows_written] and the length of [sheets] when the result has
    them. *)
Theorem success_entry_fields folder drive_service sync_service e sheet_files w1 r e'
    i sheet_file result :
  get_sheets_in_folder drive_service folder (world e) = (Ok sheet_files, w1) ->
  sync_folder_sheets py_str folder drive_service sync_service e = (Ok r, e') ->
  sheet_files !! i = Some sheet_file ->
  (answers_of sync_service sheet_files w1).1 !! i = Some (Ok result) ->
  details r !! i
  = Some {[ "file_name" := PStr (name sheet_file);
            "file_token" := PStr (token sheet_file);
            "status" := PStr "success";
            "rows_written" := PInt (default 0%Z (total_rows_written result));
            "sheets_count" := PInt (Z.of_nat (length (default [] (sheets result)))) ]}
  ∧ (∀ n records,
       total_rows_written result = Some n -> sheets result = Some records ->
       details r !! i
       = Some {[ "file_name" := PStr (name sheet_file);
                 "file_token" := PStr (token sheet_file);
                 "status" := PStr "success";
                 "rows_written" := PInt n;
                 "sheets_count" := PInt (Z.of_nat (length records)) ]}).
Proof.
  intros Hlist Hrun Hfile Hanswer. invert_run Hrun.
  rewrite Hlist in Hlist0. injection Hlist0 as <- <-.
  rewrite Hans in Hanswer. simpl in Hanswer.
  pose proof (details_lookup _ _ _ _ _ Hfile Hanswer) as Hd.
  split; [exact Hd |].
  intros n records Hn Hrecords. simpl. rewrite Hd. simpl.
  unfold success_detail, rows_written, sheets_count. by rewrite Hn, Hrecords.
Qed.

(** ** The message *)

Lemma string_app_assoc s1 s2 s3 : (s1 +:+ s2) +:+ s3 = s1 +:+ s2 +:+ s3.
Proof.
  induction s1 as [| a s1 IH]; [reflexivity |].
  change (String a ((s1 +:+ s2) +:+ s3) = String a (s1 +:+ s2 +:+ s3)).
  by rewrite IH.
Qed.

Lemma string_app_nil_r s : s +:+ "" = s.
Proof.
  induction s as [| a s IH]; [reflexivity |].
  change (String a (s +:+ "") = String a s). by rewrite IH.
Qed.

Lemma has_char_app c s1 s2 :
  has_char c (s1 +:+ s2) = has_char c s1 || has_char c s2.
Proof.
  induction s1 as [| a s1 IH]; [reflexivity |].
  simpl. by rewrite IH, orb_assoc.
Qed.

(** The decimal digits of a number hold no comma. *)
Lemma pretty_N_go_no_comma (x : N) s :
  has_char "," s = false -> has_char "," (pretty_N_go x s) = false.
Proof.
  revert s. induction (N.lt_wf_0 x) as [x _ IH]; intros s Hs.
  destruct (decide (x = 0%N)) as [-> | Hpos]; [by rewrite pretty_N_go_0 |].
  rewrite pretty_N_go_step by lia.
  apply IH; [apply N.div_lt; lia |].
  simpl. rewrite Hs, orb_false_r.
  unfold pretty_N_char. by repeat case_match.
Qed.

Lemma pretty_nat_no_comma (n : nat) : has_char "," (pretty n) = false.
Proof.
  unfold pretty, pretty_nat, pretty, pretty_N.
  case_decide; [reflexivity |]. by apply pretty_N_go_no_comma.
Qed.

Lemma message_base_no_comma (synced total : nat) :
  has_char "," ("同步完成: " +:+ pretty synced +:+ "/" +:+ pretty total +:+ " 成功") = false.
Proof.
  rewrite !has_char_app, !pretty_nat_no_comma. reflexivity.
Qed.

(** C8: the message of a returned report gives the synced and the total
    count as "<synced_sheets>/<total_sheets>", followed by the clause with
    the failed count when [failed_sheets > 0] and by nothing otherwise; so
    that clause occurs in the message exactly when [failed_sheets > 0]. *)
Theorem message_reports_counts folder drive_service sync_service e r e' :
  sync_folder_sheets py_str folder drive_service sync_service e = (Ok r, e') ->
  let base := "同步完成: " +:+ pretty (synced_sheets r) +:+ "/"
              +:+ pretty (total_sheets r) +:+ " 成功" in
  let clause := ", " +:+ pretty (failed_sheets r) +:+ " 失败" in
  (0 < failed_sheets r -> message r = base +:+ clause)
  ∧ (failed_sheets r = 0 -> message r = base)
  ∧ ((∃ before after, message r = before +:+ clause +:+ after)
     <-> 0 < failed_sheets r).
Proof.
  intros Hrun. invert_run Hrun. simpl.
  unfold build_message.
  destruct (count_raise answers) as [| failed] eqn:Hfailed; simpl.
  - split; [lia |]. split; [done |]. split; [| lia].
    intros (before & after & Hmsg).
    pose proof (message_base_no_comma (count_ok answers) (length sheet_files)) as Hno.
    rewrite Hmsg, !has_char_app in Hno. simpl in Hno.
    by rewrite orb_true_r in Hno.
  - split.
    + intros _. by rewrite !string_app_assoc.
    + split; [lia |]. split; [lia |]. intros _.
      exists ("同步完成: " +:+ pretty (count_ok answers) +:+ "/"
              +:+ pretty (length sheet_files) +:+ " 成功"), "".
      by rewrite !string_app_assoc, string_app_nil_r.
Qed.

(** ** Two runs and the handlers *)

Lemma call_ok_sync_calls sheet_files answers :
  length answers = length sheet_files ->
  call_ok <$> zip_with sync_call sheet_files answers = is_ok <$> answers.
Proof.
  revert answers.
  induction sheet_files as [| sheet_file rest IH]; intros [| answer answers] Hlen;
    try discriminate Hlen; [reflexivity |].
  simpl. f_equal. apply IH. by injection Hlen.
Qed.

Lemma counts_of_pattern answers1 answers2 :
  is_ok <$> answers1 = is_ok <$> answers2 ->
  count_ok answers1 = count_ok answers2 ∧ count_raise answers1 = count_raise answers2.
Proof.
  revert answers2.
  induction answers1 as [| a1 answers1 IH]; intros [| a2 answers2] Hpat;
    try discriminate Hpat; [by split |].
  injection Hpat as Hhead Htail. destruct (IH _ Htail) as [IHok IHraise].
  rewrite !count_ok_cons, !count_raise_cons, Hhead, IHok, IHraise. by split.
Qed.

(** C9: two runs on the same folder token, the second from the state the
    first one left, in which the listing answers the same and every call
    of the second run returns or raises as the corresponding call of the
    first did, return reports with the same [total_sheets],
    [synced_sheets], [failed_sheets] and [success]. *)
Theorem same_behaviour_same_counts folder drive_service sync_service e0 r1 e1 r2 e2 :
  sync_folder_sheets py_str folder drive_service sync_service e0 = (Ok r1, e1) ->
  sync_folder_sheets py_str folder drive_service sync_service e1 = (Ok r2, e2) ->
  (get_sheets_in_folder drive_service folder (world e0)).1
  = (get_sheets_in_folder drive_service folder (world e1)).1 ->
  call_ok <$> new_calls e0 e1 = call_ok <$> new_calls e1 e2 ->
  total_sheets r1 = total_sheets r2
  ∧ synced_sheets r1 = synced_sheets r2
  ∧ failed_sheets r1 = failed_sheets r2
  ∧ success r1 = success r2.
Proof.
  intros Hrun1 Hrun2 Hfiles Hpattern.
  invert_run Hrun1. invert_run Hrun2.
  rewrite Hlist, Hlist0 in Hfiles. simpl in Hfiles. injection Hfiles as <-.
  rewrite (new_calls_app _ _ _ Hcalls), (new_calls_app _ _ _ Hcalls0) in Hpattern.
  rewrite !fmap_cons in Hpattern. injection Hpattern as Hpattern.
  rewrite !call_ok_sync_calls in Hpattern by (by eapply answers_of_length_eq).
  destruct (counts_of_pattern _ _ Hpattern) as [Hok Hraise].
  simpl. by rewrite Hok, Hraise.
Qed.


End Properties.

(** * The scenario, run *)

Import Scenario.

Example scenario_run :
  sync_folder_sheets py_str "F1" drive_service sync_service start = (Ok report, finish).
Proof. vm_compute. reflexivity. Qed.

Example scenario_run_again :
  sync_folder_sheets py_str "F1" drive_service sync_service finish
  = (Ok report, finish_again).
Proof. vm_compute. reflexivity. Qed.

Example scenario_empty_folder :
  (sync_folder_sheets py_str "F0" drive_service sync_service start).1 = Ok empty_report.
Proof. vm_compute. reflexivity. Qed.

Example scenario_missing_folder :
  (sync_folder_sheets py_str "F9" drive_service sync_service start).1
  = Raise (HTTPException 500 "文件夹同步失败: folder not found").
Proof. vm_compute. reflexivity. Qed.

Lemma counts_add_up_witness :
  get_sheets_in_folder drive_service "F1" (world start) = (Ok listed, 1)
  ∧ sync_folder_sheets py_str "F1" drive_service sync_service start = (Ok report, finish)
  ∧ total_sheets report = length listed
  ∧ total_sheets report = synced_sheets report + failed_sheets report
  ∧ synced_sheets report + failed_sheets report = length (details report).
Proof.
  assert (Hlist : get_sheets_in_folder drive_service "F1" (world start) = (Ok listed, 1))
    by reflexivity.
  assert (Hrun : sync_folder_sheets py_str "F1" drive_service sync_service start
                 = (Ok report, finish)) by (vm_compute; reflexivity).
  split; [exact Hlist |]. split; [exact Hrun |].
  exact (counts_add_up py_str "F1" drive_service sync_service start listed 1
           report finish Hlist Hrun).
Defined.

Lemma success_iff_none_failed_witness :
  sync_folder_sheets py_str "F1" drive_service sync_service start = (Ok report, finish)
  ∧ (success report = true <-> failed_sheets report = 0).
Proof.
  assert (Hrun : sync_folder_sheets py_str "F1" drive_service sync_service start
                 = (Ok report, finish)) by (vm_compute; reflexivity).
  split; [exact Hrun |].
  exact (success_iff_none_failed py_str "F1" drive_service sync_service start
           report finish Hrun).
Defined.

Lemma empty_folder_report_witness :
  get_sheets_in_folder drive_service "F0" (world start) = (Ok [], 1)
  ∧ ∃ r e',
      sync_folder_sheets py_str "F0" drive_service sync_service start = (Ok r, e')
      ∧ total_sheets r = 0 ∧ synced_sheets r = 0 ∧ failed_sheets r = 0
      ∧ success r = true ∧ details r = [].
Proof.
  assert (Hlist : get_sheets_in_folder drive_service "F0" (world start) = (Ok [], 1))
    by reflexivity.
  split; [exact Hlist |].
  exact (empty_folder_report py_str "F0" drive_service sync_service start 1 Hlist).
Defined.



Lemma listing_failure_aborts_witness :
  get_sheets_in_folder drive_service "F9" (world start)
  = (Raise (OtherException "folder not found"), 1)
  ∧ sync_folder_sheets py_str "F9" drive_service sync_service start
    = (Raise (HTTPException 500 "文件夹同步失败: folder not found"),
       {| world := 1;
          calls := [Call_get_sheets_in_folder "F9"
                      (Raise (OtherException "folder not found"))] |})
  ∧ ∀ r e', sync_folder_sheets py_str "F9" drive_service sync_service start ≠ (Ok r, e').
Proof.
  assert (Hlist : get_sheets_in_folder drive_service "F9" (world start)
                  = (Raise (OtherException "folder not found"), 1)) by reflexivity.
  split; [exact Hlist |].
  exact (listing_failure_aborts py_str "F9" drive_service sync_service start
           (OtherException "folder not found") 1 Hlist).
Defined.

Lemma details_follow_listing_witness :
  get_sheets_in_folder drive_service "F1" (world start) = (Ok listed, 1)
  ∧ sync_folder_sheets py_str "F1" drive_service sync_service start = (Ok report, finish)
  ∧ count_raise (answers_of sync_service listed 1).1 = 1
  ∧ length (details report) = length listed
  ∧ (λ d : Dict, d !! "file_token") <$> details report
    = (λ sheet_file, Some (PStr (token sheet_file))) <$> listed
  ∧ length (filter (λ d, status d = Some (PStr "failed")) (details report)) = 1
  ∧ length (filter (λ d, status d = Some (PStr "success")) (details report))
    = length listed - 1.
Proof.
  assert (Hlist : get_sheets_in_folder drive_service "F1" (world start) = (Ok listed, 1))
    by reflexivity.
  assert (Hrun : sync_folder_sheets py_str "F1" drive_service sync_service start
                 = (Ok report, finish)) by (vm_compute; reflexivity).
  assert (Hone : count_raise (answers_of sync_service listed 1).1 = 1) by reflexivity.
  destruct (details_follow_listing py_str "F1" drive_service sync_service start listed 1
              report finish Hlist Hrun)
    as (Hlen & _ & Htokens & _ & _ & _ & Hparticular).
  destruct (Hparticular Hone) as [Hfailures Hsuccesses].
  repeat split; assumption.
Defined.

Lemma success_entry_fields_witness :
  get_sheets_in_folder drive_service "F1" (world start) = (Ok listed, 1)
  ∧ sync_folder_sheets py_str "F1" drive_service sync_service start = (Ok report, finish)
  ∧ listed !! 2 = Some C
  ∧ (answers_of sync_service listed 1).1 !! 2 = Some (Ok result_C)
  ∧ details report !! 2
    = Some {[ "file_name" := PStr "C"; "file_token" := PStr "shtC";
              "status" := PStr "success";
              "rows_written" := PInt 5; "sheets_count" := PInt 1 ]}.
Proof.
  assert (Hlist : get_sheets_in_folder drive_service "F1" (world start) = (Ok listed, 1))
    by reflexivity.
  assert (Hrun : sync_folder_sheets py_str "F1" drive_service sync_service start
                 = (Ok report, finish)) by (vm_compute; reflexivity).
  assert (Hfile : listed !! 2 = Some C) by reflexivity.
  assert (Hanswer : (answers_of sync_service listed 1).1 !! 2 = Some (Ok result_C))
    by reflexivity.
  repeat (split; [assumption |]).
  exact (proj2 (success_entry_fields py_str "F1" drive_service sync_service start listed 1
                  report finish 2 C result_C Hlist Hrun Hfile Hanswer)
           5%Z [()] eq_refl eq_refl).
Defined.

Lemma message_reports_counts_witness :
  sync_folder_sheets py_str "F1" drive_service sync_service start = (Ok report, finish)
  ∧ 0 < failed_sheets report
  ∧ message report = "同步完成: 2/3 成功" +:+ ", 1 失败".
Proof.
  assert (Hrun : sync_folder_sheets py_str "F1" drive_service sync_service start
                 = (Ok report, finish)) by (vm_compute; reflexivity).
  assert (Hfailed : 0 < failed_sheets report) by (simpl; lia).
  repeat (split; [assumption |]).
  exact (proj1 (message_reports_counts py_str "F1" drive_service sync_service start
                  report finish Hrun) Hfailed).
Defined.

Lemma same_behaviour_same_counts_witness :
  sync_folder_sheets py_str "F2" drive_service counting_sync_service start
  = (Ok (counted_report 2), counted_once)
  ∧ sync_folder_sheets py_str "F2" drive_service counting_sync_service counted_once
    = (Ok (counted_report 5), counted_twice)
  ∧ (get_sheets_in_folder drive_service "F2" (world start)).1
    = (get_sheets_in_folder drive_service "F2" (world counted_once)).1
  ∧ call_ok <$> new_calls start counted_once
    = call_ok <$> new_calls counted_once counted_twice
  ∧ counted_report 2 ≠ counted_report 5
  ∧ total_sheets (counted_report 2) = total_sheets (counted_report 5)
  ∧ synced_sheets (counted_report 2) = synced_sheets (counted_report 5)
  ∧ failed_sheets (counted_report 2) = failed_sheets (counted_report 5)
  ∧ success (counted_report 2) = success (counted_report 5).
Proof.
  assert (Hrun1 : sync_folder_sheets py_str "F2" drive_service counting_sync_service start
                  = (Ok (counted_report 2), counted_once)) by (vm_compute; reflexivity).
  assert (Hrun2 : sync_folder_sheets py_str "F2" drive_service counting_sync_service
                    counted_once
                  = (Ok (counted_report 5), counted_twice)) by (vm_compute; reflexivity).
  assert (Hfiles : (get_sheets_in_folder drive_service "F2" (world start)).1
                   = (get_sheets_in_folder drive_service "F2" (world counted_once)).1)
    by reflexivity.
  assert (Hpattern : call_ok <$> new_calls start counted_once
                     = call_ok <$> new_calls counted_once counted_twice) by reflexivity.
  assert (Hdiffer : counted_report 2 ≠ counted_report 5) by (vm_compute; discriminate).
  repeat (split; [assumption |]).
  exact (same_behaviour_same_counts py_str "F2" drive_service counting_sync_service start
           (counted_report 2) counted_once (counted_report 5) counted_twice
           Hrun1 Hrun2 Hfiles Hpattern).
Defined.



(** * Further properties of the endpoints *)

Section MoreProperties.

Context {World SheetRecord : Type}.
Variable py_str : PyExc -> string.

Implicit Types (drive_service : DriveService World)
               (sync_service : SheetSyncService World SheetRecord)
               (sheet_file : SheetFile) (sheet_files : list SheetFile)
               (answers : list (Outcome (SheetSyncResult SheetRecord)))
               (w : World) (e : Env World SheetRecord).

(** ** The single-sheet endpoint *)

Lemma sync_sheet_to_redis_run sheet_token sync_service e answer w1 :
  sync_sheet sync_service sheet_token (world e) = (answer, w1) ->
  sync_sheet_to_redis py_str sheet_token sync_service e
  = (match answer with
     | Ok result => Ok {| SyncResponse.success := true;
                          SyncResponse.message := "同步完成";
                          SyncResponse.details := Some result |}
     | Raise err => Raise (if isinstance err cls_Exception
                           then HTTPException 500 ("同步失败: " +:+ py_str err)
                           else err)
     end,
     {| world := w1; calls := calls e ++ [Call_sync_sheet sheet_token answer] |}).
Proof.
  intros Hcall.
  unfold sync_sheet_to_redis, invoke, sync_sheet_to_redis_body, try_except,
    await, mbind, Py_bind; simpl.
  rewrite Hcall. destruct answer as [result | err]; [done |]. by destruct err.
Qed.

(** X1: a response of the single-sheet endpoint always has [success] true,
    the message "同步完成" and, as [details], the very result the sync service
    returned; the endpoint made one call, the sync of the given token, which
    returned, and left the world that call left. *)
Theorem sync_sheet_to_redis_returns sheet_token sync_service e resp e' :
  sync_sheet_to_redis py_str sheet_token sync_service e = (Ok resp, e') ->
  ∃ result,
    sync_sheet sync_service sheet_token (world e) = (Ok result, world e')
    ∧ SyncResponse.success resp = true
    ∧ SyncResponse.message resp = "同步完成"
    ∧ SyncResponse.details resp = Some result
    ∧ new_calls e e' = [Call_sync_sheet sheet_token (Ok result)].
Proof.
  intros Hrun.
  destruct (sync_sheet sync_service sheet_token (world e)) as [answer w1] eqn:Hcall.
  rewrite (sync_sheet_to_redis_run _ _ _ _ _ Hcall) in Hrun.
  destruct answer as [result | err]; [| discriminate Hrun].
  injection Hrun as <- <-. exists result. simpl.
  repeat split. by apply new_calls_app.
Qed.



(** ** The default-folder endpoint *)


(** ** What the folder endpoint raises *)


(** ** The shape of the entries *)

Lemma dom_success_detail sheet_file (result : SheetSyncResult SheetRecord) :
  dom (success_detail sheet_file result) = success_keys.
Proof.
  unfold success_detail, success_keys.
  rewrite !dom_insert_L, dom_singleton_L. set_solver.
Qed.

Lemma dom_failed_detail sheet_file err :
  dom (failed_detail py_str sheet_file err) = failed_keys.
Proof.
  unfold failed_detail, failed_keys.
  rewrite !dom_insert_L, dom_singleton_L. set_solver.
Qed.

(** Reduces a returned report to [report_of]. *)
Ltac report_cases Hrun :=
  let sheet_files := fresh "sheet_files" in
  let w1 := fresh "w1" in
  let answers := fresh "answers" in
  let Hlist := fresh "Hlist" in
  let Hans := fresh "Hans" in
  let Hcalls := fresh "Hcalls" in
  apply sync_folder_sheets_returns_inv in Hrun
    as (sheet_files & w1 & answers & Hlist & Hans & -> & Hcalls).

(** X6: every entry of [details] is of one of two shapes. Either its
    status is "success" and its keys are exactly [file_name], [file_token],
    [status], [rows_written], [sheets_count], the last two integers with
    [sheets_count] not negative; or its status is "failed" and its keys are
    exactly [file_name], [file_token], [status], [error], the last a
    string. No entry has both [error] and [rows_written]. *)
Theorem entries_have_two_shapes folder drive_service sync_service e r e' (d : Dict) :
  sync_folder_sheets py_str folder drive_service sync_service e = (Ok r, e') ->
  d ∈ details r ->
  (status d = Some (PStr "success")
   ∧ dom d = success_keys
   ∧ ∃ rows count, d !! "rows_written" = Some (PInt rows)
                   ∧ d !! "sheets_count" = Some (PInt count) ∧ (0 <= count)%Z)
  ∨ (status d = Some (PStr "failed")
     ∧ dom d = failed_keys
     ∧ ∃ text, d !! "error" = Some (PStr text)).
Proof.
  intros Hrun Hd. report_cases Hrun. simpl in Hd.
  apply elem_of_zip_with in Hd as (sheet_file & answer & -> & _ & _).
  destruct answer as [result | err]; simpl.
  - left. split; [reflexivity |]. split; [apply dom_success_detail |].
    eexists _, _. split; [reflexivity |]. split; [reflexivity |]. lia.
  - right. split; [reflexivity |]. split; [apply dom_failed_detail |].
    eexists. reflexivity.
Qed.

(** ** A run without failures *)

Lemma count_raise_none answers :
  count_raise answers = 0 <-> Forall (λ a, is_ok a = true) answers.
Proof.
  induction answers as [| answer answers IH].
  - split; [constructor | reflexivity].
  - rewrite count_raise_cons, Forall_cons. destruct answer; simpl.
    + rewrite IH. tauto.
    + split; [lia | intros [? _]; discriminate].
Qed.

Lemma all_success_entries sheet_files answers :
  length answers = length sheet_files ->
  Forall (λ d, status d = Some (PStr "success"))
         (zip_with (detail_of py_str) sheet_files answers)
  <-> Forall (λ a, is_ok a = true) answers.
Proof.
  revert answers.
  induction sheet_files as [| sheet_file rest IH]; intros [| answer answers] Hlen;
    try discriminate Hlen.
  - split; constructor.
  - injection Hlen as Hlen. cbn [zip_with]. rewrite !Forall_cons, (IH _ Hlen).
    rewrite status_detail_of.
    destruct answer; simpl; [tauto |].
    split; intros [Hhead _]; discriminate Hhead.
Qed.

(** X7: a returned report has [success] true exactly when every entry of
    [details] has status "success", and exactly when [synced_sheets] equals
    [total_sheets]; its message is then "同步完成: N/N 成功" with N the total,
    without any further clause. *)
Theorem success_means_all_synced folder drive_service sync_service e r e' :
  sync_folder_sheets py_str folder drive_service sync_service e = (Ok r, e') ->
  (success r = true <-> Forall (λ d, status d = Some (PStr "success")) (details r))
  ∧ (success r = true <-> synced_sheets r = total_sheets r)
  ∧ (success r = true ->
     message r = "同步完成: " +:+ pretty (total_sheets r) +:+ "/"
                 +:+ pretty (total_sheets r) +:+ " 成功").
Proof.
  intros Hrun. report_cases Hrun. simpl.
  pose proof (answers_of_length_eq _ _ _ _ _ Hans) as Hlen.
  pose proof (count_ok_raise answers) as Hsum.
  rewrite Nat.eqb_eq. split; [| split].
  - by rewrite (all_success_entries _ _ Hlen), count_raise_none.
  - lia.
  - intros Hnone. unfold build_message. rewrite Hnone. simpl.
    by replace (count_ok answers) with (length sheet_files) by lia.
Qed.

(** ** Files listed more than once *)

Lemma per_token_counts (t : string) sheet_files answers :
  length answers = length sheet_files ->
  length (filter (λ c, is_sync_of t c = true) (zip_with sync_call sheet_files answers))
  = length (filter (λ sheet_file, token sheet_file = t) sheet_files)
  ∧ length (filter (λ d : Dict, d !! "file_token" = Some (PStr t))
                   (zip_with (detail_of py_str) sheet_files answers))
    = length (filter (λ sheet_file, token sheet_file = t) sheet_files).
Proof.
  revert answers.
  induction sheet_files as [| sheet_file rest IH]; intros [| answer answers] Hlen;
    try discriminate Hlen; [by split |].
  injection Hlen as Hlen. destruct (IH _ Hlen) as [IHc IHd].
  cbn [zip_with]. rewrite !filter_cons, file_token_detail_of. simpl.
  destruct (decide (token sheet_file = t)) as [Heq | Hne].
  - rewrite bool_decide_eq_true_2 by done.
    rewrite !decide_True by congruence. simpl. by rewrite IHc, IHd.
  - rewrite bool_decide_eq_false_2 by done.
    rewrite !decide_False by congruence. by rewrite IHc, IHd.
Qed.

(** X8: the endpoint does not merge files listed more than once: for every
    token, the sync service is called as many times on it, and [details] has
    as many entries with it, as the listing has files with that token. *)
Theorem listed_twice_synced_twice folder drive_service sync_service e sheet_files w1
    r e' (t : string) :
  get_sheets_in_folder drive_service folder (world e) = (Ok sheet_files, w1) ->
  sync_folder_sheets py_str folder drive_service sync_service e = (Ok r, e') ->
  length (filter (λ c, is_sync_of t c = true) (new_calls e e'))
  = length (filter (λ sheet_file, token sheet_file = t) sheet_files)
  ∧ length (filter (λ d : Dict, d !! "file_token" = Some (PStr t)) (details r))
    = length (filter (λ sheet_file, token sheet_file = t) sheet_files).
Proof.
  intros Hlist Hrun. report_cases Hrun.
  rewrite Hlist in Hlist0. injection Hlist0 as <- <-.
  rewrite (new_calls_app _ _ _ Hcalls). simpl.
  rewrite filter_cons_False by (simpl; discriminate).
  apply per_token_counts. by eapply answers_of_length_eq.
Qed.

(** ** A folder synced in two halves *)

Lemma answers_of_app sync_service sheet_files1 sheet_files2 w answers1 w1 answers2 w2 :
  answers_of sync_service sheet_files1 w = (answers1, w1) ->
  answers_of sync_service sheet_files2 w1 = (answers2, w2) ->
  answers_of sync_service (sheet_files1 ++ sheet_files2)%list w
  = ((answers1 ++ answers2)%list, w2).
Proof.
  revert w answers1.
  induction sheet_files1 as [| sheet_file rest IH]; intros w answers1 H1 H2.
  - simpl in H1. injection H1 as <- <-. exact H2.
  - simpl in *.
    destruct (sync_sheet sync_service (token sheet_file) w) as [answer w'].
    destruct (answers_of sync_service rest w') as [answers' w''] eqn:Hrest.
    injection H1 as <- <-. by rewrite (IH _ _ Hrest H2).
Qed.

Lemma count_ok_app answers1 answers2 :
  count_ok (answers1 ++ answers2)%list = count_ok answers1 + count_ok answers2.
Proof. unfold count_ok. by rewrite filter_app, length_app. Qed.

Lemma count_raise_app answers1 answers2 :
  count_raise (answers1 ++ answers2)%list = count_raise answers1 + count_raise answers2.
Proof. unfold count_raise. by rewrite filter_app, length_app. Qed.

(** X9: syncing a folder whose listing is [l1 ++ l2] gives what syncing a
    folder listing [l1] and then one listing [l2] gives, provided the
    listings leave the same world where the first run starts and the last
    listing leaves the world as it is: the entries of the whole are the
    entries of the two halves one after the other, the three counts add up,
    [success] is the conjunction, and the world left is the same. *)
Theorem sync_in_two_halves folder folder1 folder2 drive_service sync_service e
    sheet_files1 sheet_files2 w1 r r1 r2 e' e1 e2 :
  get_sheets_in_folder drive_service folder (world e)
  = (Ok (sheet_files1 ++ sheet_files2)%list, w1) ->
  get_sheets_in_folder drive_service folder1 (world e) = (Ok sheet_files1, w1) ->
  get_sheets_in_folder drive_service folder2 (world e1) = (Ok sheet_files2, world e1) ->
  sync_folder_sheets py_str folder drive_service sync_service e = (Ok r, e') ->
  sync_folder_sheets py_str folder1 drive_service sync_service e = (Ok r1, e1) ->
  sync_folder_sheets py_str folder2 drive_service sync_service e1 = (Ok r2, e2) ->
  details r = (details r1 ++ details r2)%list
  ∧ total_sheets r = total_sheets r1 + total_sheets r2
  ∧ synced_sheets r = synced_sheets r1 + synced_sheets r2
  ∧ failed_sheets r = failed_sheets r1 + failed_sheets r2
  ∧ success r = success r1 && success r2
  ∧ world e' = world e2.
Proof.
  intros Hlist Hlist1 Hlist2 Hrun Hrun1 Hrun2.
  report_cases Hrun1. rewrite Hlist1 in Hlist0. injection Hlist0 as <- <-.
  report_cases Hrun2. rewrite Hlist2 in Hlist0. injection Hlist0 as <- <-.
  report_cases Hrun. rewrite Hlist in Hlist0. injection Hlist0 as <- <-.
  rewrite (answers_of_app _ _ _ _ _ _ _ _ Hans Hans0) in Hans1.
  injection Hans1 as <- Hworld. simpl.
  pose proof (answers_of_length_eq _ _ _ _ _ Hans) as Hlen1.
  rewrite count_ok_app, count_raise_app, length_app.
  rewrite zip_with_app by done.
  repeat split; [| done].
  destruct (count_raise answers), (count_raise answers0); reflexivity.
Qed.

(** ** Services whose answers do not depend on the world *)

Lemma answers_of_stateless sync_service sheet_files w w' :
  (∀ spreadsheet w0 w0',
     (sync_sheet sync_service spreadsheet w0).1
     = (sync_sheet sync_service spreadsheet w0').1) ->
  (answers_of sync_service sheet_files w).1 = (answers_of sync_service sheet_files w').1.
Proof.
  intros Hstateless. revert w w'.
  induction sheet_files as [| sheet_file rest IH]; intros w w'; [reflexivity |].
  simpl. specialize (Hstateless (token sheet_file) w w').
  destruct (sync_sheet sync_service (token sheet_file) w) as [answer w1].
  destruct (sync_sheet sync_service (token sheet_file) w') as [answer' w1'].
  simpl in Hstateless. subst answer'.
  specialize (IH w1 w1').
  destruct (answers_of sync_service rest w1), (answers_of sync_service rest w1').
  simpl in *. by rewrite IH.
Qed.

(** X10: when the answer of the sync service to a token is the same in
    every world, and the listing answers the same in the worlds of two
    states, the endpoint returns the same report, entries and message
    included, or raises the same exception, from both states: syncing a
    folder again right after a run repeats its report. *)
Theorem rerun_repeats_report folder drive_service sync_service e e0 :
  (∀ spreadsheet w w',
     (sync_sheet sync_service spreadsheet w).1
     = (sync_sheet sync_service spreadsheet w').1) ->
  (get_sheets_in_folder drive_service folder (world e)).1
  = (get_sheets_in_folder drive_service folder (world e0)).1 ->
  (sync_folder_sheets py_str folder drive_service sync_service e).1
  = (sync_folder_sheets py_str folder drive_service sync_service e0).1.
Proof.
  intros Hstateless Hlisting.
  destruct (get_sheets_in_folder drive_service folder (world e)) as [listing w1] eqn:Hlist.
  destruct (get_sheets_in_folder drive_service folder (world e0)) as [listing0 w1']
    eqn:Hlist0.
  simpl in Hlisting. subst listing0.
  destruct listing as [sheet_files | err].
  - pose proof (answers_of_stateless sync_service sheet_files w1 w1' Hstateless) as Hsame.
    destruct (answers_of sync_service sheet_files w1) as [answers w2] eqn:Hans.
    destruct (answers_of sync_service sheet_files w1') as [answers0 w2'] eqn:Hans0.
    simpl in Hsame. subst answers0.
    destruct (first_uncaught answers) as [err |] eqn:Hfirst.
    + destruct (sync_folder_sheets_aborted py_str _ _ _ _ _ _ _ _ _ Hlist Hans Hfirst)
        as [w' ->].
      by destruct (sync_folder_sheets_aborted py_str _ _ _ _ _ _ _ _ _ Hlist0 Hans0 Hfirst)
        as [w'' ->].
    + apply all_caught_first_uncaught in Hfirst.
      rewrite (sync_folder_sheets_listed _ _ _ _ _ _ _ _ _ Hlist Hans Hfirst).
      by rewrite (sync_folder_sheets_listed _ _ _ _ _ _ _ _ _ Hlist0 Hans0 Hfirst).
  - rewrite (sync_folder_sheets_not_listed _ _ _ _ _ _ _ Hlist).
    by rewrite (sync_folder_sheets_not_listed _ _ _ _ _ _ _ Hlist0).
Qed.

(** ** Reading the counts back from the message *)

Lemma split_at_char c s1 s2 rest1 rest2 :
  has_char c s1 = false -> has_char c s2 = false ->
  s1 +:+ String c rest1 = s2 +:+ String c rest2 ->
  s1 = s2 ∧ rest1 = rest2.
Proof.
  revert s2.
  induction s1 as [| a s1 IH]; intros [| b s2] H1 H2 Heq.
  - injection Heq as ->. by split.
  - change (String c rest1 = String b (s2 +:+ String c rest2)) in Heq.
    injection Heq as <- _. simpl in H2. by rewrite Ascii.eqb_refl in H2.
  - change (String a (s1 +:+ String c rest1) = String c rest2) in Heq.
    injection Heq as -> _. simpl in H1. by rewrite Ascii.eqb_refl in H1.
  - change (String a (s1 +:+ String c rest1) = String b (s2 +:+ String c rest2)) in Heq.
    injection Heq as -> Heq. simpl in H1, H2.
    apply orb_false_iff in H1 as [_ H1]. apply orb_false_iff in H2 as [_ H2].
    destruct (IH _ H1 H2 Heq) as [-> ->]. by split.
Qed.

(** The decimal digits of a number hold no character that is not a digit. *)
Lemma pretty_N_go_avoids c (x : N) s :
  (∀ d, pretty_N_char d ≠ c) ->
  has_char c s = false -> has_char c (pretty_N_go x s) = false.
Proof.
  intros Hc. revert s. induction (N.lt_wf_0 x) as [x _ IH]; intros s Hs.
  destruct (decide (x = 0%N)) as [-> | Hpos]; [by rewrite pretty_N_go_0 |].
  rewrite pretty_N_go_step by lia.
  apply IH; [apply N.div_lt; lia |].
  simpl. rewrite Hs, orb_false_r. by apply Ascii.eqb_neq.
Qed.

Lemma pretty_nat_avoids c (n : nat) :
  (∀ d, pretty_N_char d ≠ c) -> has_char c (pretty n) = false.
Proof.
  intros Hc. unfold pretty, pretty_nat, pretty, pretty_N.
  case_decide; [| by apply pretty_N_go_avoids].
  cbn [has_char]. rewrite orb_false_r. apply Ascii.eqb_neq, (Hc 0%N).
Qed.

Lemma digit_not_slash d : pretty_N_char d ≠ "/"%char.
Proof. unfold pretty_N_char. by repeat case_match. Qed.

Lemma digit_not_space d : pretty_N_char d ≠ " "%char.
Proof. unfold pretty_N_char. by repeat case_match. Qed.

Lemma build_message_shape (synced total failed : nat) :
  ∃ rest, build_message synced total failed
          = "同步完成: " +:+ pretty synced +:+ String "/" (pretty total +:+ String " " rest).
Proof.
  unfold build_message. destruct (0 <? failed)%nat.
  - eexists. rewrite !string_app_assoc. reflexivity.
  - eexists. reflexivity.
Qed.

Lemma build_message_inj (synced total failed synced' total' failed' : nat) :
  build_message synced total failed = build_message synced' total' failed' ->
  synced = synced' ∧ total = total'.
Proof.
  intros Heq.
  destruct (build_message_shape synced total failed) as [rest Hm].
  destruct (build_message_shape synced' total' failed') as [rest' Hm'].
  rewrite Hm, Hm' in Heq. apply String.app_inj in Heq.
  apply split_at_char in Heq as [Hsynced Heq];
    [| apply pretty_nat_avoids, digit_not_slash ..].
  apply split_at_char in Heq as [Htotal _];
    [| apply pretty_nat_avoids, digit_not_space ..].
  split; by apply (inj pretty).
Qed.

(** X11: the message determines the counts: two returned reports, of any
    two runs, that have the same message have the same [total_sheets],
    [synced_sheets], [failed_sheets] and [success]. *)
Theorem message_determines_counts folder1 folder2 drive_service1 drive_service2
    sync_service1 sync_service2 e1 e2 r1 r2 e1' e2' :
  sync_folder_sheets py_str folder1 drive_service1 sync_service1 e1 = (Ok r1, e1') ->
  sync_folder_sheets py_str folder2 drive_service2 sync_service2 e2 = (Ok r2, e2') ->
  message r1 = message r2 ->
  total_sheets r1 = total_sheets r2
  ∧ synced_sheets r1 = synced_sheets r2
  ∧ failed_sheets r1 = failed_sheets r2
  ∧ success r1 = success r2.
Proof.
  intros Hrun1 Hrun2 Hmessage. report_cases Hrun1. report_cases Hrun2.
  simpl in *.
  apply build_message_inj in Hmessage as [Hsynced Htotal].
  pose proof (answers_of_length_eq _ _ _ _ _ Hans) as Hlen.
  pose proof (answers_of_length_eq _ _ _ _ _ Hans0) as Hlen0.
  pose proof (count_ok_raise answers) as Hsum.
  pose proof (count_ok_raise answers0) as Hsum0.
  assert (count_raise answers = count_raise answers0) as Hfailed by lia.
  rewrite Hfailed. repeat split; lia.
Qed.

End MoreProperties.

(** * The further properties, run *)

Lemma sync_sheet_to_redis_returns_witness :
  sync_sheet_to_redis py_str "shtA" sync_service start
  = (Ok {| SyncResponse.success := true;
           SyncResponse.message := "同步完成";
           SyncResponse.details := Some result_A |},
     {| world := 1; calls := [Call_sync_sheet "shtA" (Ok result_A)] |})
  ∧ ∃ result,
      sync_sheet sync_service "shtA" (world start) = (Ok result, 1)
      ∧ result = result_A.
Proof.
  assert (Hrun : sync_sheet_to_redis py_str "shtA" sync_service start
                 = (Ok {| SyncResponse.success := true;
                          SyncResponse.message := "同步完成";
                          SyncResponse.details := Some result_A |},
                    {| world := 1; calls := [Call_sync_sheet "shtA" (Ok result_A)] |}))
    by (vm_compute; reflexivity).
  split; [exact Hrun |].
  destruct (sync_sheet_to_redis_returns py_str "shtA" sync_service start _ _ Hrun)
    as (result & Hcall & _ & _ & Hdetails & _).
  exists result. split; [exact Hcall |].
  simpl in Hdetails. by injection Hdetails.
Defined.





Lemma entries_have_two_shapes_witness :
  sync_folder_sheets py_str "F1" drive_service sync_service start = (Ok report, finish)
  ∧ entry_B ∈ details report
  ∧ ((status entry_B = Some (PStr "success")
      ∧ dom entry_B = success_keys
      ∧ ∃ rows count, entry_B !! "rows_written" = Some (PInt rows)
                      ∧ entry_B !! "sheets_count" = Some (PInt count) ∧ (0 <= count)%Z)
     ∨ (status entry_B = Some (PStr "failed")
        ∧ dom entry_B = failed_keys
        ∧ ∃ text, entry_B !! "error" = Some (PStr text))).
Proof.
  assert (Hrun : sync_folder_sheets py_str "F1" drive_service sync_service start
                 = (Ok report, finish)) by (vm_compute; reflexivity).
  assert (Hin : entry_B ∈ details report)
    by (simpl; apply list_elem_of_further, list_elem_of_here).
  split; [exact Hrun |]. split; [exact Hin |].
  exact (entries_have_two_shapes py_str "F1" drive_service sync_service start
           report finish entry_B Hrun Hin).
Defined.

Lemma success_means_all_synced_witness :
  sync_folder_sheets py_str "G" Halves.drive_service counting_sync_service start
  = (Ok Halves.report_whole, Halves.after_whole)
  ∧ success Halves.report_whole = true
  ∧ message Halves.report_whole = "同步完成: 3/3 成功".
Proof.
  assert (Hrun : sync_folder_sheets py_str "G" Halves.drive_service counting_sync_service
                   start
                 = (Ok Halves.report_whole, Halves.after_whole))
    by (vm_compute; reflexivity).
  split; [exact Hrun |]. split; [reflexivity |].
  exact (proj2 (proj2 (success_means_all_synced py_str "G" Halves.drive_service
                         counting_sync_service start _ _ Hrun)) eq_refl).
Defined.

Lemma listed_twice_synced_twice_witness :
  get_sheets_in_folder Halves.drive_service "GG" (world start) = (Ok [A; B; A], 0)
  ∧ sync_folder_sheets py_str "GG" Halves.drive_service sync_service start
    = (Ok Halves.report_twice_listed, Halves.after_twice_listed)
  ∧ length (filter (λ c, is_sync_of "shtA" c = true)
                   (new_calls start Halves.after_twice_listed)) = 2
  ∧ length (filter (λ d : Dict, d !! "file_token" = Some (PStr "shtA"))
                   (details Halves.report_twice_listed)) = 2.
Proof.
  assert (Hlist : get_sheets_in_folder Halves.drive_service "GG" (world start)
                  = (Ok [A; B; A], 0)) by reflexivity.
  assert (Hrun : sync_folder_sheets py_str "GG" Halves.drive_service sync_service start
                 = (Ok Halves.report_twice_listed, Halves.after_twice_listed))
    by (vm_compute; reflexivity).
  split; [exact Hlist |]. split; [exact Hrun |].
  exact (listed_twice_synced_twice py_str "GG" Halves.drive_service sync_service start
           [A; B; A] 0 _ _ "shtA" Hlist Hrun).
Defined.

Lemma sync_in_two_halves_witness :
  get_sheets_in_folder Halves.drive_service "G" (world start) = (Ok ([A] ++ [B; C])%list, 0)
  ∧ get_sheets_in_folder Halves.drive_service "G1" (world start) = (Ok [A], 0)
  ∧ get_sheets_in_folder Halves.drive_service "G2" (world Halves.after_first)
    = (Ok [B; C], world Halves.after_first)
  ∧ sync_folder_sheets py_str "G" Halves.drive_service counting_sync_service start
    = (Ok Halves.report_whole, Halves.after_whole)
  ∧ sync_folder_sheets py_str "G1" Halves.drive_service counting_sync_service start
    = (Ok Halves.report_first, Halves.after_first)
  ∧ sync_folder_sheets py_str "G2" Halves.drive_service counting_sync_service
      Halves.after_first
    = (Ok Halves.report_second, Halves.after_second)
  ∧ details Halves.report_whole
    = (details Halves.report_first ++ details Halves.report_second)%list
  ∧ total_sheets Halves.report_whole
    = total_sheets Halves.report_first + total_sheets Halves.report_second
  ∧ synced_sheets Halves.report_whole
    = synced_sheets Halves.report_first + synced_sheets Halves.report_second
  ∧ failed_sheets Halves.report_whole
    = failed_sheets Halves.report_first + failed_sheets Halves.report_second
  ∧ success Halves.report_whole
    = success Halves.report_first && success Halves.report_second
  ∧ world Halves.after_whole = world Halves.after_second.
Proof.
  assert (Hlist : get_sheets_in_folder Halves.drive_service "G" (world start)
                  = (Ok ([A] ++ [B; C])%list, 0)) by reflexivity.
  assert (Hlist1 : get_sheets_in_folder Halves.drive_service "G1" (world start)
                   = (Ok [A], 0)) by reflexivity.
  assert (Hlist2 : get_sheets_in_folder Halves.drive_service "G2" (world Halves.after_first)
                   = (Ok [B; C], world Halves.after_first)) by reflexivity.
  assert (Hrun : sync_folder_sheets py_str "G" Halves.drive_service counting_sync_service
                   start
                 = (Ok Halves.report_whole, Halves.after_whole))
    by (vm_compute; reflexivity).
  assert (Hrun1 : sync_folder_sheets py_str "G1" Halves.drive_service counting_sync_service
                    start
                  = (Ok Halves.report_first, Halves.after_first))
    by (vm_compute; reflexivity).
  assert (Hrun2 : sync_folder_sheets py_str "G2" Halves.drive_service counting_sync_service
                    Halves.after_first
                  = (Ok Halves.report_second, Halves.after_second))
    by (vm_compute; reflexivity).
  repeat (split; [assumption |]).
  exact (sync_in_two_halves py_str "G" "G1" "G2" Halves.drive_service
           counting_sync_service start [A] [B; C] 0 _ _ _ _ _ _
           Hlist Hlist1 Hlist2 Hrun Hrun1 Hrun2).
Defined.

Lemma rerun_repeats_report_witness :
  (∀ spreadsheet w w',
     (sync_sheet sync_service spreadsheet w).1 = (sync_sheet sync_service spreadsheet w').1)
  ∧ (get_sheets_in_folder drive_service "F1" (world start)).1
    = (get_sheets_in_folder drive_service "F1" (world finish)).1
  ∧ (sync_folder_sheets py_str "F1" drive_service sync_service start).1
    = (sync_folder_sheets py_str "F1" drive_service sync_service finish).1.
Proof.
  assert (Hstateless : ∀ spreadsheet w w',
            (sync_sheet sync_service spreadsheet w).1
            = (sync_sheet sync_service spreadsheet w').1)
    by (intros spreadsheet w w'; simpl; repeat case_decide; reflexivity).
  assert (Hlisting : (get_sheets_in_folder drive_service "F1" (world start)).1
                     = (get_sheets_in_folder drive_service "F1" (world finish)).1)
    by reflexivity.
  split; [exact Hstateless |]. split; [exact Hlisting |].
  exact (rerun_repeats_report py_str "F1" drive_service sync_service start finish
           Hstateless Hlisting).
Defined.

Lemma message_determines_counts_witness :
  sync_folder_sheets py_str "F1" drive_service sync_service start = (Ok report, finish)
  ∧ sync_folder_sheets py_str "GG" Halves.drive_service sync_service start
    = (Ok Halves.report_twice_listed, Halves.after_twice_listed)
  ∧ message report = message Halves.report_twice_listed
  ∧ report ≠ Halves.report_twice_listed
  ∧ total_sheets report = total_sheets Halves.report_twice_listed
  ∧ synced_sheets report = synced_sheets Halves.report_twice_listed
  ∧ failed_sheets report = failed_sheets Halves.report_twice_listed
  ∧ success report = success Halves.report_twice_listed.
Proof.
  assert (Hrun1 : sync_folder_sheets py_str "F1" drive_service sync_service start
                  = (Ok report, finish)) by (vm_compute; reflexivity).
  assert (Hrun2 : sync_folder_sheets py_str "GG" Halves.drive_service sync_service start
                  = (Ok Halves.report_twice_listed, Halves.after_twice_listed))
    by (vm_compute; reflexivity).
  assert (Hmessage : message report = message Halves.report_twice_listed) by reflexivity.
  assert (Hdiffer : report ≠ Halves.report_twice_listed) by (vm_compute; discriminate).
  repeat (split; [assumption |]).
  exact (message_determines_counts py_str "F1" "GG" drive_service Halves.drive_service
           sync_service sync_service start start _ _ _ _ Hrun1 Hrun2 Hmessage).
Defined.
